(** * Universal remote shutdown server: a shallow embedding

    Source: [scripts/remote-shutdown/universal-shutdown-server.py].

    The Flask views, the [require_api_key] decorator, the two countdown
    workers and the start-up code of [main] are written as Rocq functions.
    Effects are explicit: every function returns the list of events it
    performs (log lines, sleeps, [os.system] calls, thread starts) next to
    its result, exceptions are a sum type, the [CONFIG] dictionary is a
    [gmap], and what the operating system and Flask supply (the platform
    tag, the outcome of [os.system], the clock, the parsed request) are
    inputs. *)

From Stdlib Require Import ZArith List Bool Ascii String.
From stdpp Require Import base numbers list strings gmap pretty.

Set Warnings "-register-all".

Open Scope string_scope.
Open Scope list_scope.
Open Scope Z_scope.

(** ** Python values *)

Module Py.

(** The values that [json.load] and [request.get_json] can produce and that
    [CONFIG] can hold; JSON numbers are the integers.  A JSON object is kept
    as its list of members. *)
Inductive val :=
| None_
| Bool (b : bool)
| Int (n : Z)
| Str (s : string)
| List_ (l : list val)
| Dict (d : list (string * val)).

(** [bool(v)]: what [not api_key] and [if args.port:] test. *)
Definition truthy (v : val) : bool :=
  match v with
  | None_ => false
  | Bool b => b
  | Int n => negb (n =? 0)
  | Str s => negb (String.eqb s EmptyString)
  | List_ l => match l with [] => false | _ => true end
  | Dict d => match d with [] => false | _ => true end
  end.

(** The first member of [d] named [k]. *)
Fixpoint first_bound (k : string) (d : list (string * val)) : option val :=
  match d with
  | [] => None
  | (k', v) :: d' => if String.eqb k k' then Some v else first_bound k d'
  end.

(** [d.get(k)] on the members of an object as they stand in the text: when
    a name is repeated, [json] keeps the value of its last member. *)
Definition assoc (k : string) (d : list (string * val)) : option val :=
  first_bound k (rev d).

(** [v == w].  [bool] is a subclass of [int], so [True == 1]; values of
    different kinds are otherwise unequal; lists compare pointwise and
    dictionaries member by member whatever their order. *)
Fixpoint eqb (v w : val) {struct v} : bool :=
  match v, w with
  | None_, None_ => true
  | Bool a, Bool b => Bool.eqb a b
  | Bool a, Int n => (if a then 1 else 0) =? n
  | Int n, Bool b => n =? (if b then 1 else 0)
  | Int n, Int m => n =? m
  | Str s, Str t => String.eqb s t
  | List_ l, List_ m =>
      (fix go (l m : list val) {struct l} : bool :=
         match l, m with
         | [], [] => true
         | x :: l', y :: m' => eqb x y && go l' m'
         | _, _ => false
         end) l m
  | Dict d, Dict e =>
      (length d =? length e)%nat &&
      (fix go (d : list (string * val)) {struct d} : bool :=
         match d with
         | [] => true
         | (k, x) :: d' =>
             match assoc k e with
             | Some y => eqb x y
             | None => false
             end && go d'
         end) d
  | _, _ => false
  end.

(** [v != w]. *)
Definition neb (v w : val) : bool := negb (eqb v w).

(** An integer where Python wants one ([range], [int.__index__]). *)
Definition index (v : val) : option Z :=
  match v with
  | Int n => Some n
  | Bool b => Some (if b then 1 else 0)
  | _ => None
  end.

(** Does the string [s] occur as a string value anywhere inside [v]? *)
Fixpoint mentions (s : string) (v : val) {struct v} : bool :=
  match v with
  | Str t => String.eqb s t
  | List_ l =>
      (fix go (l : list val) : bool :=
         match l with
         | [] => false
         | x :: l' => mentions s x || go l'
         end) l
  | Dict d =>
      (fix go (d : list (string * val)) : bool :=
         match d with
         | [] => false
         | (_, x) :: d' => mentions s x || go d'
         end) d
  | _ => false
  end.

End Py.

(** ** Exceptions *)

(** A computation that returns or raises; [Raise] carries the exception's
    class name and its [str()]. *)
Inductive result (A : Type) :=
| Ok (a : A)
| Raise (cls msg : string).
Arguments Ok {A} a.
Arguments Raise {A} cls msg.

Definition bind {A B} (r : result A) (k : A → result B) : result B :=
  match r with
  | Ok a => k a
  | Raise c m => Raise c m
  end.

(** ** The configuration dictionary *)

(** [CONFIG[k]]: a [KeyError] when [k] is not a key; [str(KeyError(k))] is
    the quoted key. *)
Definition getitem (C : gmap string Py.val) (k : string) : result Py.val :=
  match C !! k with
  | Some v => Ok v
  | None => Raise "KeyError" ("'" +:+ k +:+ "'")
  end.

(** The module-level [CONFIG]; [device_name] is what the environment
    variables [COMPUTERNAME] and [HOSTNAME] give, else ['Unknown']. *)
Definition default_device_name (COMPUTERNAME HOSTNAME : option string) : string :=
  match COMPUTERNAME with
  | Some n => n
  | None => match HOSTNAME with Some n => n | None => "Unknown" end
  end.

Definition CONFIG_init (device_name : string) : gmap string Py.val :=
  <["port" := Py.Int 5000]>
  (<["host" := Py.Str "0.0.0.0"]>
  (<["api_key" := Py.Str "change-this-secret-key"]>
  (<["device_name" := Py.Str device_name]>
  (<["shutdown_delay" := Py.Int 5]>
  (<["log_file" := Py.Str "shutdown-server.log"]> ∅))))).

(** ** Effects *)

(** The two workers a thread can be started on: [shutdown_system] and
    [restart_system]. *)
Inductive power := Shutdown | Restart.

(** What the program does to the outside world, in the order it does it. *)
Inductive event :=
| Info (msg : string)          (* logger.info *)
| Warning (msg : string)       (* logger.warning *)
| Error (msg : string)         (* logger.error *)
| Sleep (secs : Z)             (* time.sleep *)
| System (cmd : string)        (* os.system *)
| Start (target : power).      (* threading.Thread(target=...).start() *)

(** A computation: the events performed, then a value or an exception. *)
Definition M (A : Type) : Type := (list event * result A)%type.

Definition ret {A} (a : A) : M A := ([], Ok a).

Definition raise {A} (cls msg : string) : M A := ([], Raise cls msg).

Definition perform (es : list event) : M unit := (es, Ok tt).

Definition emit (e : event) : M unit := perform [e].

Definition lift {A} (r : result A) : M A := ([], r).

Definition seq_ {A B} (m : M A) (k : A → M B) : M B :=
  match m with
  | (es, Ok a) => let '(es', r) := k a in (es ++ es', r)
  | (es, Raise c msg) => (es, Raise c msg)
  end.

(** [try: m except Exception as e: handler(e)]; the handler gets [str(e)]. *)
Definition try_ {A} (m : M A) (handler : string → M A) : M A :=
  match m with
  | (es, Raise _ msg) => let '(es', r) := handler msg in (es ++ es', r)
  | ok => ok
  end.

#[global] Instance M_ret : MRet M := @ret.
#[global] Instance M_bind : MBind M := λ A B k m, seq_ m k.

Definition events {A} (m : M A) : list event := fst m.
Definition outcome {A} (m : M A) : result A := snd m.

(** ** The host *)

Inductive os_outcome :=
| Exit (status : Z)            (* os.system returned this wait status *)
| Throws (cls msg : string).   (* os.system raised *)

(** [sys.platform] and the behaviour of [os.system] on this machine. *)
Record host := {
  platform : string;
  os_system : string → os_outcome;
}.

Definition system (h : host) (cmd : string) : M Z :=
  match os_system h cmd with
  | Exit n => ([System cmd], Ok n)
  | Throws c msg => ([System cmd], Raise c msg)
  end.

(** The double quote, for the [/c "..."] comment of the Windows commands. *)
Definition dq : string := String (ascii_of_nat 34) EmptyString.

(** ** The countdown workers *)

(** [type(v).__name__], for the text of a [TypeError]. *)
Definition type_name (v : Py.val) : string :=
  match v with
  | Py.None_ => "NoneType"
  | Py.Bool _ => "bool"
  | Py.Int _ => "int"
  | Py.Str _ => "str"
  | Py.List_ _ => "list"
  | Py.Dict _ => "dict"
  end.

(** The argument of [range] must be an integer. *)
Definition as_index (v : Py.val) : M Z :=
  match Py.index v with
  | Some n => ret n
  | None => raise "TypeError"
      ("'" +:+ type_name v +:+ "' object cannot be interpreted as an integer")
  end.

(** [range(start, stop, -1)]: [start, start-1, ...] down to [stop+1]; empty
    when [start <= stop]. *)
Definition range_down (start stop : Z) : list Z :=
  map (λ k, start - Z.of_nat k) (seq 0 (Z.to_nat (start - stop))).

(** [for i in range(delay, 0, -1): logger.info(f"<verb> in {i} seconds...");
    time.sleep(1)]. *)
Definition countdown (verb : string) (delay : Z) : list event :=
  flat_map
    (λ i, [Info (verb +:+ " in " +:+ pretty i +:+ " seconds..."); Sleep 1])
    (range_down delay 0).

Definition shutdown_system (h : host) (C : gmap string Py.val) : M bool :=
  emit (Info ("Initiating system shutdown on " +:+ platform h +:+ "..."));;
  d ← lift (getitem C "shutdown_delay");
  n ← as_index d;
  perform (countdown "Shutting down" n);;
  emit (Info "Executing shutdown command...");;
  try_
    (if String.eqb (platform h) "win32" then
       emit (Info "Executing Windows shutdown");;
       system h ("shutdown /s /t 1 /c " +:+ dq
                 +:+ "Remote shutdown via Discord Maid Bot" +:+ dq);;
       ret true
     else if String.eqb (platform h) "linux" then
       emit (Info "Executing Linux shutdown");;
       system h "sudo shutdown -h now";;
       ret true
     else if String.eqb (platform h) "darwin" then
       emit (Info "Executing macOS shutdown");;
       system h "sudo shutdown -h now";;
       ret true
     else
       emit (Error ("Unsupported platform: " +:+ platform h));;
       ret false)
    (λ e, emit (Error ("Shutdown command failed: " +:+ e));; ret false).

Definition restart_system (h : host) (C : gmap string Py.val) : M bool :=
  emit (Info ("Initiating system restart on " +:+ platform h +:+ "..."));;
  d ← lift (getitem C "shutdown_delay");
  n ← as_index d;
  perform (countdown "Restarting" n);;
  emit (Info "Executing restart command...");;
  try_
    (if String.eqb (platform h) "win32" then
       emit (Info "Executing Windows restart");;
       system h ("shutdown /r /t 1 /c " +:+ dq
                 +:+ "Remote restart via Discord Maid Bot" +:+ dq);;
       ret true
     else if String.eqb (platform h) "linux" then
       emit (Info "Executing Linux restart");;
       system h "sudo shutdown -r now";;
       ret true
     else if String.eqb (platform h) "darwin" then
       emit (Info "Executing macOS restart");;
       system h "sudo shutdown -r now";;
       ret true
     else
       emit (Error ("Unsupported platform: " +:+ platform h));;
       ret false)
    (λ e, emit (Error ("Restart command failed: " +:+ e));; ret false).

(** What a thread started on [t] runs. *)
Definition worker (t : power) : host → gmap string Py.val → M bool :=
  match t with
  | Shutdown => shutdown_system
  | Restart => restart_system
  end.

(** ** Requests and responses *)

(** What Flask's [request] object offers the decorator and the views.
    [json] is what [request.get_json()] gives on a request whose content
    type is JSON: the parsed body, or [None] when the body does not parse
    (Flask raises [BadRequest]). *)
Record request := {
  headers : gmap string string;
  args : gmap string string;
  is_json : bool;
  json : option Py.val;
  remote_addr : string;
}.

(** [jsonify(d), code]. *)
Record response := {
  code : Z;
  body : gmap string Py.val;
}.

(** [m.get(k)] on the headers or the query arguments: the string or
    [None]. *)
Definition get_str (m : gmap string string) (k : string) : Py.val :=
  match m !! k with
  | Some s => Py.Str s
  | None => Py.None_
  end.

Definition get_json (req : request) : result Py.val :=
  match json req with
  | Some v => Ok v
  | None => Raise "BadRequest"
      ("400 Bad Request: The browser (or proxy) sent a request that "
       +:+ "this server could not understand.")
  end.

(** [v.get(k)]: only a dictionary has the method. *)
Definition get_method (v : Py.val) (k : string) : result Py.val :=
  match v with
  | Py.Dict d => Ok (default Py.None_ (Py.assoc k d))
  | _ => Raise "AttributeError"
      ("'" +:+ type_name v +:+ "' object has no attribute 'get'")
  end.

(** Lines 84-92 of [decorated_function]: the value of [api_key] when the
    comparison is reached. *)
Definition presented_api_key (req : request) : result Py.val :=
  let api_key := get_str (headers req) "X-API-Key" in
  let api_key :=
    if negb (Py.truthy api_key) then get_str (args req) "api_key"
    else api_key in
  if negb (Py.truthy api_key) && is_json req then
    bind (get_json req) (λ j, get_method j "api_key")
  else Ok api_key.

Definition unauthorized : response :=
  {| code := 401;
     body := <["error" := Py.Str "Unauthorized"]>
             (<["message" := Py.Str "Invalid API key"]> ∅) |}.

(** What a turned-away request gets: the warning in the log and the 401. *)
Definition reject (req : request) : M response :=
  ([Warning ("Unauthorized access attempt from " +:+ remote_addr req)],
   Ok unauthorized).

(** [require_api_key(f)] applied to a request; [f] is the wrapped view on
    that request. *)
Definition require_api_key (f : M response)
    (C : gmap string Py.val) (req : request) : M response :=
  api_key ← lift (presented_api_key req);
  key ← lift (getitem C "api_key");
  if Py.neb api_key key then
    emit (Warning ("Unauthorized access attempt from " +:+ remote_addr req));;
    ret unauthorized
  else f.

(** The test of line 94 read as the Authenticator: does the presented value
    pass? *)
Definition authenticate (C : gmap string Py.val) (api_key : Py.val)
    : result bool :=
  bind (getitem C "api_key") (λ key, Ok (negb (Py.neb api_key key))).

(** ** The views *)

(** What [Thread.start()] does in this process: the thread starts, or the
    interpreter cannot start one and raises [RuntimeError]. *)
Inductive threading :=
| CanStart
| CannotStart (msg : string).

(** [threading.Thread(target=...).start()]. *)
Definition start_thread (th : threading) (t : power) : M unit :=
  match th with
  | CanStart => emit (Start t)
  | CannotStart msg => raise "RuntimeError" msg
  end.

(** The body of [shutdown()]; [now] is [datetime.now().isoformat()]. *)
Definition shutdown_view_in (th : threading) (C : gmap string Py.val)
    (req : request) (now : string) : M response :=
  try_
    (emit (Info ("Shutdown request received from " +:+ remote_addr req));;
     start_thread th Shutdown;;
     device ← lift (getitem C "device_name");
     delay ← lift (getitem C "shutdown_delay");
     ret {| code := 200;
            body := <["status" := Py.Str "success"]>
                    (<["message" := Py.Str "Shutdown initiated"]>
                    (<["device" := device]>
                    (<["delay" := delay]>
                    (<["timestamp" := Py.Str now]> ∅)))) |})
    (λ e,
     emit (Error ("Error processing shutdown request: " +:+ e));;
     ret {| code := 500;
            body := <["status" := Py.Str "error"]>
                    (<["message" := Py.Str e]> ∅) |}).

(** The body of [restart()]. *)
Definition restart_view_in (th : threading) (C : gmap string Py.val)
    (req : request) (now : string) : M response :=
  try_
    (emit (Info ("Restart request received from " +:+ remote_addr req));;
     start_thread th Restart;;
     device ← lift (getitem C "device_name");
     delay ← lift (getitem C "shutdown_delay");
     ret {| code := 200;
            body := <["status" := Py.Str "success"]>
                    (<["message" := Py.Str "Restart initiated"]>
                    (<["device" := device]>
                    (<["delay" := delay]>
                    (<["timestamp" := Py.Str now]> ∅)))) |})
    (λ e,
     emit (Error ("Error processing restart request: " +:+ e));;
     ret {| code := 500;
            body := <["status" := Py.Str "error"]>
                    (<["message" := Py.Str e]> ∅) |}).

(** The routes [/shutdown] and [/restart] in a process of which [th] says
    whether it can start a thread. *)
Definition shutdown_in (th : threading) (C : gmap string Py.val)
    (req : request) (now : string) : M response :=
  require_api_key (shutdown_view_in th C req now) C req.

Definition restart_in (th : threading) (C : gmap string Py.val)
    (req : request) (now : string) : M response :=
  require_api_key (restart_view_in th C req now) C req.

(** The two views in a process that can start threads. *)
Definition shutdown_view : gmap string Py.val → request → string → M response :=
  shutdown_view_in CanStart.

Definition restart_view : gmap string Py.val → request → string → M response :=
  restart_view_in CanStart.

(** The routes [/shutdown] and [/restart]: the views under the decorator. *)
Definition shutdown (C : gmap string Py.val) (req : request) (now : string)
    : M response :=
  require_api_key (shutdown_view C req now) C req.

Definition restart (C : gmap string Py.val) (req : request) (now : string)
    : M response :=
  require_api_key (restart_view C req now) C req.

(** [status()] and [ping()], without the decorator. *)
Definition status (h : host) (C : gmap string Py.val) (now : string)
    : M response :=
  device ← lift (getitem C "device_name");
  ret {| code := 200;
         body := <["status" := Py.Str "online"]>
                 (<["device" := device]>
                 (<["platform" := Py.Str (platform h)]>
                 (<["version" := Py.Str "1.0.0.0-beta"]>
                 (<["timestamp" := Py.Str now]> ∅)))) |}.

Definition ping (C : gmap string Py.val) (now : string) : M response :=
  device ← lift (getitem C "device_name");
  ret {| code := 200;
         body := <["pong" := Py.Bool true]>
                 (<["device" := device]>
                 (<["timestamp" := Py.Str now]> ∅)) |}.

(** The body of [get_config()]: a copy of [CONFIG] with the key masked. *)
Definition mask : string := "***hidden***".

Definition get_config_view (C : gmap string Py.val) : M response :=
  let safe_config := C in
  let safe_config := <["api_key" := Py.Str mask]> safe_config in
  ret {| code := 200; body := safe_config |}.

(** The route [/config]. *)
Definition get_config (C : gmap string Py.val) (req : request) : M response :=
  require_api_key (get_config_view C) C req.

(** Submitting a power action is a request to one of the two routes. *)
Definition submit (t : power) : gmap string Py.val → request → string
    → M response :=
  match t with
  | Shutdown => shutdown
  | Restart => restart
  end.

(** The same, in a process of which [th] says whether it can start a
    thread. *)
Definition submit_in (th : threading) (t : power)
    : gmap string Py.val → request → string → M response :=
  match t with
  | Shutdown => shutdown_in th
  | Restart => restart_in th
  end.

(** ** The serving process *)

(** A thread started by a view: its target and the number of events of its
    run it has performed so far.  Nothing in the program keeps track of the
    threads; the list below is the bookkeeping of the model. *)
Record thread := {
  target : power;
  performed : nat;
}.

Record server := {
  threads : list thread;
  trace : list event;
}.

Definition idle : server := {| threads := []; trace := [] |}.

(** The threads a run of a view starts. *)
Definition started (es : list event) : list thread :=
  omap (λ e, match e with
             | Start t => Some {| target := t; performed := 0 |}
             | _ => None
             end) es.

(** The bookkeeping of a served request: its events join the trace and the
    threads it starts join the list.  This records which threads exist, not
    when they run; how a thread's steps fall among those of the view that
    started it is what [runs], below, describes. *)
Definition serve (m : M response) (s : server) : result response * server :=
  (outcome m,
   {| threads := threads s ++ started (events m);
      trace := trace s ++ events m |}).

Section Threads.
Variable h : host.
Variable C : gmap string Py.val.

(** The whole run of a thread, from start to return. *)
Definition run_of (th : thread) : list event :=
  events (worker (target th) h C).

(** A thread is alive until it has performed its whole run. *)
Definition alive (th : thread) : bool :=
  (performed th <? length (run_of th))%nat.

(** Thread [i] performs its next event. *)
Definition advance (i : nat) (s : server) : option server :=
  th ← threads s !! i;
  e ← run_of th !! performed th;
  Some {| threads := <[i := {| target := target th;
                               performed := S (performed th) |}]> (threads s);
          trace := trace s ++ [e] |}.

(** The countdowns in flight. *)
Definition active (s : server) : list thread := filter (λ th, alive th) (threads s).
End Threads.

(** ** A request and the thread it starts, side by side *)

(** What can be observed of the serving of one request: the events of the
    view and of the thread it starts, and the answer going out. *)
Inductive obs :=
| Did (e : event)
| Answered (r : result response).

(** The ways two sequences can be merged, each keeping its own order. *)
Inductive interleave {A : Type} : list A → list A → list A → Prop :=
| interleave_nil : interleave [] [] []
| interleave_left x l1 l2 l :
    interleave l1 l2 l → interleave (x :: l1) l2 (x :: l)
| interleave_right x l1 l2 l :
    interleave l1 l2 l → interleave l1 (x :: l2) (x :: l).

(** The observations a view can give rise to.  The view performs its events
    in order and then answers; from the moment [start()] has returned, the
    worker runs in its own thread, so what it does falls anywhere among the
    rest of the view, the answer included.  Nothing in the source orders
    the two. *)
Fixpoint runs (h : host) (C : gmap string Py.val) (es : list event)
    (r : result response) (tr : list obs) : Prop :=
  match es with
  | [] => tr = [Answered r]
  | e :: es' =>
      ∃ tr', tr = Did e :: tr' ∧
        match e with
        | Start t =>
            ∃ v, runs h C es' r v ∧
                 interleave v (Did <$> events (worker t h C)) tr'
        | _ => runs h C es' r tr'
        end
  end.

Definition request_runs (h : host) (C : gmap string Py.val)
    (m : M response) (tr : list obs) : Prop :=
  runs h C (events m) (outcome m) tr.

(** ** Start-up *)

(** What [argparse] hands to [main]: [None] for an option that was not
    given. *)
Record cli := {
  arg_port : option Z;
  arg_api_key : option string;
  arg_device_name : option string;
  arg_delay : option Z;
  arg_config : string;
}.

Definition of_int (o : option Z) : Py.val :=
  match o with Some n => Py.Int n | None => Py.None_ end.

Definition of_str (o : option string) : Py.val :=
  match o with Some s => Py.Str s | None => Py.None_ end.

(** [if v: CONFIG[k] = v]. *)
Definition set_if (k : string) (v : Py.val) (C : gmap string Py.val)
    : gmap string Py.val :=
  if Py.truthy v then <[k := v]> C else C.

(** Lines 262-270 of [main]: the command-line overrides. *)
Definition main_overrides (a : cli) (C : gmap string Py.val)
    : gmap string Py.val :=
  let C := set_if "port" (of_int (arg_port a)) C in
  let C := set_if "api_key" (of_str (arg_api_key a)) C in
  let C := set_if "device_name" (of_str (arg_device_name a)) C in
  let C := set_if "shutdown_delay" (of_int (arg_delay a)) C in
  C.

(** The configuration file as [load_config] finds it.
    - [Absent]: there is no such file.
    - [Unloadable msg]: opening or parsing it raises, or it parses to a
      value [CONFIG.update] refuses before assigning anything.
    - [Object d]: it parses to a JSON object with the members [d].
    - [Interrupted d msg]: it parses to a value that is not an object (an
      array of pairs, say) of which [CONFIG.update] assigns the pairs [d],
      in this order, and then raises.
    Keys are strings throughout. *)
Inductive file :=
| Absent
| Unloadable (msg : string)
| Object (d : list (string * Py.val))
| Interrupted (d : list (string * Py.val)) (msg : string).

(** [CONFIG.update(d)]. *)
Definition update (d : list (string * Py.val)) (C : gmap string Py.val)
    : gmap string Py.val :=
  foldl (λ m kv, <[kv.1 := kv.2]> m) C d.

Definition load_config (config_file : string) (f : file)
    (C : gmap string Py.val) : M (gmap string Py.val) :=
  match f with
  | Absent => ret C
  | Unloadable msg =>
      emit (Error ("Failed to load config: " +:+ msg));; ret C
  | Object d =>
      emit (Info ("Configuration loaded from " +:+ config_file));;
      ret (update d C)
  | Interrupted d msg =>
      emit (Error ("Failed to load config: " +:+ msg));;
      ret (update d C)
  end.

(** [CONFIG] once [load_config] has run: the assignments [CONFIG.update]
    made stay, whether or not it went on to raise. *)
Definition after_load (f : file) (C : gmap string Py.val)
    : gmap string Py.val :=
  match f with
  | Object d | Interrupted d _ => update d C
  | _ => C
  end.

(** [CONFIG] as [app.run] finds it: loaded from the file, then overridden
    from the command line.  (Saving the file and the start-up banner do not
    change [CONFIG].) *)
Definition main_config (a : cli) (f : file) (C : gmap string Py.val)
    : gmap string Py.val :=
  match outcome (load_config (arg_config a) f C) with
  | Ok C' => main_overrides a C'
  | Raise _ _ => C
  end.

(** ** The credential sources as the specification lists them *)

(** The header field, as the request carries it. *)
Definition header_field (req : request) : option string :=
  headers req !! "X-API-Key".

(** The query parameter. *)
Definition query_parameter (req : request) : option string :=
  args req !! "api_key".

(** The values of the members of [d] named [api_key], in the order of the
    text. *)
Definition api_key_members (d : list (string * Py.val)) : list Py.val :=
  omap (λ kv, if String.eqb "api_key" kv.1 then Some kv.2 else None) d.

(** The body field: the value the JSON object of the body gives [api_key]
    (the last one, should the name be repeated); [None] when the request is
    not JSON, its body is no object, or the object has no such member. *)
Definition body_field (req : request) : Py.val :=
  if is_json req then
    match json req with
    | Some (Py.Dict d) => default Py.None_ (last (api_key_members d))
    | _ => Py.None_
    end
  else Py.None_.

(** The three places a credential can be presented in, in priority order:
    header field, query parameter, body field. *)
Definition credential_sources (req : request) : list Py.val :=
  [of_str (header_field req); of_str (query_parameter req); body_field req].

(** "First non-empty value wins". *)
Definition first_non_empty (vs : list Py.val) : option Py.val :=
  head (filter (λ v, Py.truthy v = true) vs).

(** ** The lines of a worker's log *)

Definition verb (t : power) : string :=
  match t with Shutdown => "Shutting down" | Restart => "Restarting" end.

Definition initiating (t : power) (h : host) : string :=
  match t with
  | Shutdown => "Initiating system shutdown on " +:+ platform h +:+ "..."
  | Restart => "Initiating system restart on " +:+ platform h +:+ "..."
  end.

Definition executing (t : power) : string :=
  match t with
  | Shutdown => "Executing shutdown command..."
  | Restart => "Executing restart command..."
  end.

(** One turn of the countdown loop: the line for [i], then a second of
    sleep. *)
Definition tick (t : power) (i : Z) : list event :=
  [Info (verb t +:+ " in " +:+ pretty i +:+ " seconds..."); Sleep 1].

(** The platform tags the workers know. *)
Definition supported (p : string) : Prop :=
  p = "win32" ∨ p = "linux" ∨ p = "darwin".

(** ** The accepted response *)

Definition initiated (t : power) : string :=
  match t with
  | Shutdown => "Shutdown initiated"
  | Restart => "Restart initiated"
  end.

Definition received (t : power) (req : request) : string :=
  match t with
  | Shutdown => "Shutdown request received from " +:+ remote_addr req
  | Restart => "Restart request received from " +:+ remote_addr req
  end.

(** The 200 answer of [/shutdown] and [/restart]. *)
Definition accepted (t : power) (device delay : Py.val) (now : string)
    : response :=
  {| code := 200;
     body := <["status" := Py.Str "success"]>
             (<["message" := Py.Str (initiated t)]>
             (<["device" := device]>
             (<["delay" := delay]>
             (<["timestamp" := Py.Str now]> ∅)))) |}.

(** ** Sample inputs *)

Definition sample_config : gmap string Py.val := CONFIG_init "pc".

(** A request that presents [key] in the [X-API-Key] header. *)
Definition with_header (key : string) : request :=
  {| headers := {["X-API-Key" := key]}; args := ∅;
     is_json := false; json := None; remote_addr := "192.168.1.20" |}.

(** A request that presents its key in a JSON body only. *)
Definition with_body (j : Py.val) : request :=
  {| headers := ∅; args := ∅;
     is_json := true; json := Some j; remote_addr := "192.168.1.20" |}.

(** A Linux host on which [os.system] returns the wait status [status]. *)
Definition linux_host (status : Z) : host :=
  {| platform := "linux"; os_system := λ _, Exit status |}.

(** A host of an unlisted platform. *)
Definition freebsd_host : host :=
  {| platform := "freebsd13"; os_system := λ _, Exit 0 |}.

(** The server after one accepted shutdown request on a fresh process. *)
Definition one_countdown : server :=
  (serve (submit Shutdown sample_config
            (with_header "change-this-secret-key") "2024-05-01T10:00:00")
         idle).2.

(** ** Saving the configuration *)




(** A command line without any option but the default [--config]. *)
Definition no_options : cli :=
  {| arg_port := None; arg_api_key := None; arg_device_name := None;
     arg_delay := None; arg_config := "shutdown-config.json" |}.

(** ** Reading a trace *)

(** The commands handed to [os.system], in order. *)
Definition commands (es : list event) : list string :=
  omap (λ e, match e with System c => Some c | _ => None end) es.

(** The seconds spent in [time.sleep]. *)
Definition slept (es : list event) : Z :=
  foldr (λ e acc, match e with Sleep n => n + acc | _ => acc end) 0 es.

(** The command each worker has for each platform tag, as the branches of
    the two [if] chains give it. *)
Definition command (t : power) (p : string) : option string :=
  if String.eqb p "win32" then
    Some match t with
         | Shutdown => "shutdown /s /t 1 /c " +:+ dq
                       +:+ "Remote shutdown via Discord Maid Bot" +:+ dq
         | Restart => "shutdown /r /t 1 /c " +:+ dq
                      +:+ "Remote restart via Discord Maid Bot" +:+ dq
         end
  else if String.eqb p "linux" || String.eqb p "darwin" then
    Some match t with
         | Shutdown => "sudo shutdown -h now"
         | Restart => "sudo shutdown -r now"
         end
  else None.

(** The keys the module-level [CONFIG] starts with. *)
Definition config_keys : list string :=
  ["port"; "host"; "api_key"; "device_name"; "shutdown_delay"; "log_file"].

(** The last value a list of members binds [k] to: what [k] holds after the
    members were assigned one after the other. *)
Definition last_bound (k : string) (d : list (string * Py.val))
    : option Py.val :=
  Py.assoc k d.

(** The value of key [k] once [load_config] has run on the file [f]. *)
Definition loaded (f : file) (C : gmap string Py.val) (k : string)
    : option Py.val :=
  match f with
  | Object d | Interrupted d _ =>
      match last_bound k d with
      | Some v => Some v
      | None => C !! k
      end
  | _ => C !! k
  end.

(** [if v: CONFIG[k] = v] read as a choice between the new value and the old
    one. *)
Definition overridden (v : Py.val) (old : option Py.val) : option Py.val :=
  if Py.truthy v then Some v else old.

(** A request that presents no credential anywhere. *)
Definition bare_request : request :=
  {| headers := ∅; args := ∅; is_json := false; json := None;
     remote_addr := "192.168.1.20" |}.

(** A Windows host on which [os.system] raises. *)
Definition broken_windows_host : host :=
  {| platform := "win32";
     os_system := λ _, Throws "OSError" "cannot start a process" |}.

(** * Properties *)

(** ** Equality with a string *)

Lemma eqb_Str_r (v : Py.val) (s : string) :
  Py.eqb v (Py.Str s) = true ↔ v = Py.Str s.
Proof.
  destruct v as [| b | n | t | l | d]; simpl; try (split; [discriminate | congruence]).
  rewrite String.eqb_eq. split; congruence.
Qed.

Lemma neb_Str_r (v : Py.val) (s : string) :
  Py.neb v (Py.Str s) = false ↔ v = Py.Str s.
Proof. unfold Py.neb. rewrite negb_false_iff. apply eqb_Str_r. Qed.

Lemma neb_Str_r_true (v : Py.val) (s : string) :
  v ≠ Py.Str s → Py.neb v (Py.Str s) = true.
Proof.
  intros Hne. destruct (Py.neb v (Py.Str s)) eqn:E; [done |].
  apply neb_Str_r in E. done.
Qed.

Lemma getitem_Some (C : gmap string Py.val) (k : string) (v : Py.val) :
  C !! k = Some v → getitem C k = Ok v.
Proof. unfold getitem. by intros ->. Qed.

(** ** The decorator *)

(** Once the presented value is known, the decorator is one comparison:
    the wrapped view runs, untouched, or the request is turned away. *)
Lemma require_api_key_compare (f : M response) (C : gmap string Py.val)
    (req : request) (v key : Py.val) :
  presented_api_key req = Ok v →
  C !! "api_key" = Some key →
  require_api_key f C req = if Py.neb v key then reject req else f.
Proof.
  intros Hv Hk. unfold require_api_key, mbind, M_bind, lift, seq_.
  rewrite Hv, (getitem_Some _ _ _ Hk).
  destruct (Py.neb v key); [reflexivity |]. by destruct f.
Qed.

(** A request whose credential cannot even be read (a JSON body that does
    not parse, or that is not an object) never reaches the view. *)
Lemma require_api_key_raise (f : M response) (C : gmap string Py.val)
    (req : request) (cls msg : string) :
  presented_api_key req = Raise cls msg →
  require_api_key f C req = ([], Raise cls msg).
Proof.
  intros Hv. unfold require_api_key, mbind, M_bind, lift, seq_.
  by rewrite Hv.
Qed.

Lemma submit_unfold (t : power) (C : gmap string Py.val) (req : request)
    (now : string) :
  submit t C req now =
  require_api_key
    (match t with
     | Shutdown => shutdown_view C req now
     | Restart => restart_view C req now
     end) C req.
Proof. by destruct t. Qed.

(** C1. Authentication succeeds exactly on the configured secret: the
    presented value passes the comparison if and only if it is the
    configured string itself (the comparison is on whole strings, so it is
    case-sensitive), every other value and the absence of a value fail, and
    the decorator lets a request through to its view on the first and turns
    it away on the second. *)
Theorem authenticate_exact (C : gmap string Py.val) (secret : string)
    (v : Py.val) :
  C !! "api_key" = Some (Py.Str secret) →
  (authenticate C v = Ok true ↔ v = Py.Str secret) ∧
  (v ≠ Py.Str secret → authenticate C v = Ok false) ∧
  authenticate C Py.None_ = Ok false ∧
  (∀ (req : request) (f : M response),
     presented_api_key req = Ok v →
     require_api_key f C req =
       match authenticate C v with
       | Ok true => f
       | _ => reject req
       end).
Proof.
  intros Hk. unfold authenticate. rewrite (getitem_Some _ _ _ Hk). simpl.
  split; [| split; [| split]].
  - split.
    + intros [= E]. apply negb_true_iff in E. by apply neb_Str_r.
    + intros ->. f_equal. apply negb_true_iff. by apply neb_Str_r.
  - intros Hne. by rewrite (neb_Str_r_true _ _ Hne).
  - reflexivity.
  - intros req f Hv. rewrite (require_api_key_compare f C req v _ Hv Hk).
    by destruct (Py.neb v (Py.Str secret)).
Qed.

Lemma authenticate_exact_witness :
  CONFIG_init "pc" !! "api_key" = Some (Py.Str "change-this-secret-key") ∧
  authenticate (CONFIG_init "pc") (Py.Str "change-this-secret-key") = Ok true ∧
  authenticate (CONFIG_init "pc") (Py.Str "Change-this-secret-key") = Ok false.
Proof.
  split; [reflexivity |].
  split.
  - destruct (authenticate_exact (CONFIG_init "pc") "change-this-secret-key"
                (Py.Str "change-this-secret-key") eq_refl) as [Hiff _].
    apply Hiff. reflexivity.
  - destruct (authenticate_exact (CONFIG_init "pc") "change-this-secret-key"
                (Py.Str "Change-this-secret-key") eq_refl) as (_ & Hne & _).
    apply Hne. discriminate.
Defined.

(** ** Rejected submissions *)

(** A submit, shutdown or restart, whose credential can be read and is not
    the configured secret is answered 401 Unauthorized; it starts no
    countdown thread, so the set of running threads is what it was, and it
    calls no operating-system command.  The only thing the request does is
    log the warning: the credential is compared before anything of the view
    runs. *)
Theorem invalid_credential_rejected (t : power) (C : gmap string Py.val)
    (secret : string) (req : request) (now : string) (v : Py.val) :
  C !! "api_key" = Some (Py.Str secret) →
  presented_api_key req = Ok v →
  v ≠ Py.Str secret →
  outcome (submit t C req now) = Ok unauthorized ∧
  code unauthorized = 401 ∧
  events (submit t C req now) =
    [Warning ("Unauthorized access attempt from " +:+ remote_addr req)] ∧
  (∀ t', Start t' ∉ events (submit t C req now)) ∧
  (∀ cmd, System cmd ∉ events (submit t C req now)) ∧
  (∀ s, threads (serve (submit t C req now) s).2 = threads s).
Proof.
  intros Hk Hv Hne.
  assert (submit t C req now = reject req) as ->.
  { rewrite submit_unfold, (require_api_key_compare _ C req v _ Hv Hk).
    by rewrite (neb_Str_r_true _ _ Hne). }
  unfold reject, outcome, events, serve; simpl.
  repeat split.
  - intros t' Hin. apply list_elem_of_singleton in Hin. discriminate.
  - intros cmd Hin. apply list_elem_of_singleton in Hin. discriminate.
  - intros s. apply app_nil_r.
Qed.

Lemma invalid_credential_rejected_witness :
  sample_config !! "api_key" = Some (Py.Str "change-this-secret-key") ∧
  presented_api_key (with_header "letmein") = Ok (Py.Str "letmein") ∧
  outcome (submit Restart sample_config (with_header "letmein")
             "2024-05-01T10:00:00") = Ok unauthorized.
Proof.
  split; [reflexivity |]. split; [reflexivity |].
  apply (invalid_credential_rejected Restart sample_config
           "change-this-secret-key" (with_header "letmein")
           "2024-05-01T10:00:00" (Py.Str "letmein"));
    [reflexivity | reflexivity | discriminate].
Defined.

(** C2 (what the code does). Not every submit without the configured
    secret is answered 401.  When neither header nor query parameter holds
    a key and the request is JSON, the decorator asks the body for
    [api_key]: a body that is an array raises [AttributeError] and a body
    that does not parse raises [BadRequest], and the exception leaves the
    decorator in place of the 401 (Flask answers 500 and 400).  Nothing is
    logged, and no thread is started. *)
Theorem unreadable_credential_not_401 (t : power) (now : string) :
  submit t sample_config (with_body (Py.List_ [])) now
    = ([], Raise "AttributeError" "'list' object has no attribute 'get'") ∧
  outcome (submit t sample_config (with_body (Py.List_ [])) now)
    ≠ Ok unauthorized ∧
  (∃ msg,
     submit t sample_config
       {| headers := ∅; args := ∅; is_json := true; json := None;
          remote_addr := "192.168.1.20" |} now
     = ([], Raise "BadRequest" msg)) ∧
  started (events (submit t sample_config (with_body (Py.List_ [])) now))
    = [].
Proof.
  destruct t; (split; [reflexivity |]); (split; [discriminate |]);
    (split; [by eexists | reflexivity]).
Qed.

(** ** Accepted submissions *)

(** An authenticated submit logs the request, starts the thread and answers
    200 with the device name, the configured delay and the time. *)
Lemma submit_accepted (t : power) (C : gmap string Py.val) (secret : string)
    (req : request) (now : string) (device delay : Py.val) :
  C !! "api_key" = Some (Py.Str secret) →
  presented_api_key req = Ok (Py.Str secret) →
  C !! "device_name" = Some device →
  C !! "shutdown_delay" = Some delay →
  submit t C req now =
    ([Info (received t req); Start t], Ok (accepted t device delay now)).
Proof.
  intros Hk Hv Hdev Hdel.
  rewrite submit_unfold, (require_api_key_compare _ C req _ _ Hv Hk).
  assert (Py.neb (Py.Str secret) (Py.Str secret) = false) as ->
    by by apply neb_Str_r.
  destruct t; unfold shutdown_view, restart_view, shutdown_view_in,
    restart_view_in, start_thread, try_, mbind, M_bind, seq_,
    lift, emit, perform, ret;
    by rewrite (getitem_Some _ _ _ Hdev), (getitem_Some _ _ _ Hdel).
Qed.

(** C3 (as the code has it). The program keeps no record of the countdown in
    flight and has no Busy answer: every authenticated submit, whatever
    threads are already running, is answered 200 with the configured delay
    and starts one more countdown thread; the threads that were running are
    left exactly as they were. *)
Theorem submit_always_accepted (t : power) (C : gmap string Py.val)
    (secret : string) (req : request) (now : string) (device delay : Py.val)
    (s : server) :
  C !! "api_key" = Some (Py.Str secret) →
  presented_api_key req = Ok (Py.Str secret) →
  C !! "device_name" = Some device →
  C !! "shutdown_delay" = Some delay →
  let '(r, s') := serve (submit t C req now) s in
  r = Ok (accepted t device delay now) ∧
  code (accepted t device delay now) = 200 ∧
  body (accepted t device delay now) !! "delay" = Some delay ∧
  threads s' = threads s ++ [{| target := t; performed := 0 |}] ∧
  (∀ i th, threads s !! i = Some th → threads s' !! i = Some th).
Proof.
  intros Hk Hv Hdev Hdel. unfold serve.
  rewrite (submit_accepted t C secret req now device delay Hk Hv Hdev Hdel).
  unfold outcome, events; simpl. repeat split; try done.
  intros i th Hi. by apply lookup_app_l_Some.
Qed.

Lemma submit_always_accepted_witness :
  sample_config !! "api_key" = Some (Py.Str "change-this-secret-key") ∧
  presented_api_key (with_header "change-this-secret-key")
    = Ok (Py.Str "change-this-secret-key") ∧
  sample_config !! "device_name" = Some (Py.Str "pc") ∧
  sample_config !! "shutdown_delay" = Some (Py.Int 5) ∧
  (let '(r, s') :=
     serve (submit Restart sample_config
              (with_header "change-this-secret-key") "2024-05-01T10:00:01")
           one_countdown in
   r = Ok (accepted Restart (Py.Str "pc") (Py.Int 5) "2024-05-01T10:00:01") ∧
   code (accepted Restart (Py.Str "pc") (Py.Int 5) "2024-05-01T10:00:01")
     = 200 ∧
   body (accepted Restart (Py.Str "pc") (Py.Int 5) "2024-05-01T10:00:01")
     !! "delay" = Some (Py.Int 5) ∧
   threads s' =
     threads one_countdown ++ [{| target := Restart; performed := 0 |}] ∧
   (∀ i th, threads one_countdown !! i = Some th → threads s' !! i = Some th)).
Proof.
  split; [reflexivity |]. split; [reflexivity |].
  split; [reflexivity |]. split; [reflexivity |].
  apply (submit_always_accepted Restart sample_config
           "change-this-secret-key" (with_header "change-this-secret-key")
           "2024-05-01T10:00:01" (Py.Str "pc") (Py.Int 5) one_countdown);
    reflexivity.
Defined.

(** C3 (as stated) fails: with a shutdown countdown in flight on a Linux
    host, an authenticated restart request is not turned away as Busy (409)
    but answered 200, and two countdowns are then in flight. *)
Lemma second_submit_not_busy :
  let h := linux_host 0 in
  let '(r, s') :=
    serve (submit Restart sample_config
             (with_header "change-this-secret-key") "2024-05-01T10:00:01")
          one_countdown in
  active h sample_config one_countdown
    = [{| target := Shutdown; performed := 0 |}] ∧
  (∃ resp, r = Ok resp ∧ code resp = 200 ∧ code resp ≠ 409) ∧
  active h sample_config s'
    = [{| target := Shutdown; performed := 0 |};
       {| target := Restart; performed := 0 |}] ∧
  ¬ (length (active h sample_config s') ≤ 1)%nat.
Proof.
  vm_compute. split; [reflexivity |]. split.
  - eexists. split; [reflexivity |]. split; [reflexivity | discriminate].
  - split; [reflexivity |]. intros H. inversion H as [| ? H1]. inversion H1.
Qed.

(** ** The workers *)

Lemma countdown_ticks (t : power) (n : Z) :
  countdown (verb t) n = flat_map (tick t) (range_down n 0).
Proof. reflexivity. Qed.

Lemma System_not_in_countdown (verb : string) (n : Z) (cmd : string) :
  System cmd ∉ countdown verb n.
Proof.
  unfold countdown. intros Hin.
  apply list_elem_of_In, in_flat_map in Hin as (i & _ & Hin).
  simpl in Hin. destruct Hin as [? | [? | []]]; discriminate.
Qed.

(** Two different tags fail the test [sys.platform == '...']. *)
Lemma eqb_ne (p q : string) : p ≠ q → String.eqb p q = false.
Proof. intros H. by apply String.eqb_neq. Qed.

(** Up to the dispatch every run is the same: the opening line, the
    countdown, the line that announces the command. *)
Lemma worker_prefix (t : power) (h : host) (C : gmap string Py.val)
    (d : Py.val) (n : Z) :
  C !! "shutdown_delay" = Some d →
  Py.index d = Some n →
  ∃ rest,
    events (worker t h C) =
      Info (initiating t h) :: countdown (verb t) n
        ++ Info (executing t) :: rest ∧
    (∀ cmd, System cmd ∈ rest →
       supported (platform h)).
Proof.
  intros Hd Hn.
  destruct t; unfold worker, shutdown_system, restart_system, as_index,
    mbind, M_bind, seq_, lift, emit, perform, ret, events;
    rewrite (getitem_Some _ _ _ Hd), Hn; simpl.
  all: destruct (String.eqb (platform h) "win32") eqn:Ew;
    [| destruct (String.eqb (platform h) "linux") eqn:El;
       [| destruct (String.eqb (platform h) "darwin") eqn:Ed]].
  all: unfold system, try_; simpl.
  all: try match goal with
       | |- context [os_system ?h0 ?c] => destruct (os_system h0 c)
       end; simpl.
  all: eexists; (split; [reflexivity |]).
  all: intros cmd Hin; repeat (apply elem_of_cons in Hin as [Hin | Hin];
                               try discriminate).
  all: try (by apply not_elem_of_nil in Hin).
  all: unfold supported; rewrite <- !String.eqb_eq; auto.
Qed.

(** The whole run of a worker on a platform it does not know. *)
Lemma worker_unsupported (t : power) (h : host) (C : gmap string Py.val)
    (d : Py.val) (n : Z) :
  platform h ≠ "win32" → platform h ≠ "linux" → platform h ≠ "darwin" →
  C !! "shutdown_delay" = Some d →
  Py.index d = Some n →
  worker t h C =
    (Info (initiating t h) :: countdown (verb t) n
       ++ [Info (executing t);
           Error ("Unsupported platform: " +:+ platform h)],
     Ok false).
Proof.
  intros Hw Hl Hm Hd Hn.
  destruct t; unfold worker, shutdown_system, restart_system, as_index,
    mbind, M_bind, seq_, lift, emit, perform, ret;
    rewrite (getitem_Some _ _ _ Hd), Hn; simpl;
    by rewrite (eqb_ne _ _ Hw), (eqb_ne _ _ Hl), (eqb_ne _ _ Hm).
Qed.

(** A worker that cannot read an integer delay stops at its first line. *)
Lemma worker_bad_delay (t : power) (h : host) (C : gmap string Py.val) :
  (∀ d, C !! "shutdown_delay" = Some d → Py.index d = None) →
  events (worker t h C) = [Info (initiating t h)].
Proof.
  intros Hbad.
  destruct t; unfold worker, shutdown_system, restart_system, as_index,
    mbind, M_bind, seq_, lift, emit, perform, ret, getitem, events;
    (destruct (C !! "shutdown_delay") as [d |] eqn:Hd;
      [rewrite (Hbad d eq_refl) |]); reflexivity.
Qed.

(** C4. On every platform tag other than the three the workers know, a
    worker started for either action calls no operating-system command at
    all, and, once its countdown is over, logs the unsupported platform and
    returns [False]. *)
Theorem unsupported_platform_fails (t : power) (h : host)
    (C : gmap string Py.val) :
  platform h ≠ "win32" → platform h ≠ "linux" → platform h ≠ "darwin" →
  (∀ cmd, System cmd ∉ events (worker t h C)) ∧
  (∀ d n, C !! "shutdown_delay" = Some d → Py.index d = Some n →
     outcome (worker t h C) = Ok false ∧
     events (worker t h C) =
       Info (initiating t h) :: countdown (verb t) n
         ++ [Info (executing t);
             Error ("Unsupported platform: " +:+ platform h)]).
Proof.
  intros Hw Hl Hm. split.
  - intros cmd Hin.
    destruct (C !! "shutdown_delay") as [d |] eqn:Hd;
      [destruct (Py.index d) as [n |] eqn:Hn |].
    + rewrite (worker_unsupported t h C d n Hw Hl Hm Hd Hn) in Hin.
      unfold events in Hin; simpl in Hin.
      apply elem_of_cons in Hin as [? | Hin]; [discriminate |].
      apply elem_of_app in Hin as [Hin | Hin].
      * by apply System_not_in_countdown in Hin.
      * repeat (apply elem_of_cons in Hin as [? | Hin]; [discriminate |]).
        by apply not_elem_of_nil in Hin.
    + rewrite worker_bad_delay in Hin.
      * apply list_elem_of_singleton in Hin. discriminate.
      * intros d' Hd'. rewrite Hd in Hd'. by injection Hd' as <-.
    + rewrite worker_bad_delay in Hin.
      * apply list_elem_of_singleton in Hin. discriminate.
      * intros d' Hd'. rewrite Hd in Hd'. discriminate.
  - intros d n Hd Hn.
    by rewrite (worker_unsupported t h C d n Hw Hl Hm Hd Hn).
Qed.

Lemma unsupported_platform_fails_witness :
  platform freebsd_host ≠ "win32" ∧ platform freebsd_host ≠ "linux" ∧
  platform freebsd_host ≠ "darwin" ∧
  ∀ cmd, System cmd ∉ events (worker Restart freebsd_host sample_config).
Proof.
  split; [discriminate |]. split; [discriminate |]. split; [discriminate |].
  apply (unsupported_platform_fails Restart freebsd_host sample_config);
    discriminate.
Defined.

(** On a platform the workers know, the result follows one thing only:
    whether [os.system] returned or raised.  The wait status it returns is
    not looked at. *)
Lemma worker_supported_returns (t : power) (h : host)
    (C : gmap string Py.val) (d : Py.val) (n : Z) :
  supported (platform h) →
  C !! "shutdown_delay" = Some d →
  Py.index d = Some n →
  (∀ cmd, ∃ status, os_system h cmd = Exit status) →
  outcome (worker t h C) = Ok true.
Proof.
  intros Hs Hd Hn Hexit.
  destruct t; unfold worker, shutdown_system, restart_system, as_index,
    mbind, M_bind, seq_, lift, emit, perform, ret, outcome;
    rewrite (getitem_Some _ _ _ Hd), Hn; simpl.
  all: destruct Hs as [-> | [-> | ->]]; simpl; unfold system.
  all: match goal with
       | |- context [os_system ?h0 ?c] =>
           destruct (Hexit c) as [st ->]
       end; reflexivity.
Qed.

Lemma worker_supported_raises (t : power) (h : host)
    (C : gmap string Py.val) (d : Py.val) (n : Z) :
  supported (platform h) →
  C !! "shutdown_delay" = Some d →
  Py.index d = Some n →
  (∀ cmd, ∃ cls msg, os_system h cmd = Throws cls msg) →
  outcome (worker t h C) = Ok false.
Proof.
  intros Hs Hd Hn Hthrows.
  destruct t; unfold worker, shutdown_system, restart_system, as_index,
    mbind, M_bind, seq_, lift, emit, perform, ret, outcome;
    rewrite (getitem_Some _ _ _ Hd), Hn; simpl.
  all: destruct Hs as [-> | [-> | ->]]; simpl; unfold system.
  all: match goal with
       | |- context [os_system ?h0 ?c] =>
           destruct (Hthrows c) as (cls & msg & ->)
       end; reflexivity.
Qed.


(** C5 (what the code does). On Linux the worker returns [True] whatever
    wait status [os.system] returns: a command that could not be launched
    (status 32512, the shell's "command not found") is reported exactly as
    a command that ran, with no error line in the log. *)
Theorem exit_status_ignored (t : power) (status : Z) :
  outcome (worker t (linux_host status) sample_config) = Ok true ∧
  (∀ msg, Error msg ∉ events (worker t (linux_host status) sample_config)) ∧
  worker t (linux_host 32512) sample_config
    = worker t (linux_host 0) sample_config.
Proof.
  destruct t; (split; [reflexivity |]); (split; [| reflexivity]).
  all: intros msg Hin; vm_compute in Hin.
  all: repeat (apply elem_of_cons in Hin as [? | Hin]; [discriminate |]).
  all: by apply not_elem_of_nil in Hin.
Qed.

(** ** The countdown *)

Lemma range_down_length (n : Z) : length (range_down n 0) = Z.to_nat n.
Proof.
  unfold range_down. rewrite length_map, length_seq. f_equal. lia.
Qed.

Lemma range_down_lookup (n : Z) (i : nat) :
  (i < Z.to_nat n)%nat → range_down n 0 !! i = Some (n - Z.of_nat i).
Proof.
  intros Hi. unfold range_down. rewrite list_lookup_fmap.
  replace (n - 0) with n by lia.
  by rewrite lookup_seq_lt.
Qed.

Lemma range_down_bounds (n x : Z) : x ∈ range_down n 0 → 1 ≤ x ≤ n.
Proof.
  unfold range_down. intros Hin.
  apply list_elem_of_fmap in Hin as (k & -> & Hk).
  apply elem_of_seq in Hk. lia.
Qed.

(** An element that is not in [l] and splits [l ++ rest] lies in [rest]. *)
Lemma split_after_prefix {A} (l rest pre post : list A) (x : A) :
  x ∉ l → l ++ rest = pre ++ x :: post → ∃ mid, pre = l ++ mid.
Proof.
  revert pre. induction l as [| a l IH]; intros pre Hx E.
  - by exists pre.
  - destruct pre as [| b pre]; simpl in E.
    + injection E as -> _. exfalso. apply Hx. by left.
    + injection E as -> E.
      destruct (IH pre) as [mid ->]; [| done | by exists mid].
      intros Hin. apply Hx. by right.
Qed.

(** C6 (as the code has it). The countdown runs over [range(delay, 0, -1)]:
    for a delay [n] there are exactly [n] ticks, the [i]-th (from 0) is for
    [n - i], so they go down one by one from [n] to 1 and never reach 0
    (for [n = 0] there is none); each tick is one log line followed by one
    second of sleep; and any operating-system command of the run comes
    after the whole countdown and the line that announces the command. *)
Theorem countdown_from_delay_to_one (t : power) (h : host)
    (C : gmap string Py.val) (n : Z) :
  0 ≤ n →
  C !! "shutdown_delay" = Some (Py.Int n) →
  length (range_down n 0) = Z.to_nat n ∧
  (∀ i, (i < Z.to_nat n)%nat → range_down n 0 !! i = Some (n - Z.of_nat i)) ∧
  (∀ x, x ∈ range_down n 0 → 1 ≤ x ≤ n) ∧
  (∃ rest,
     events (worker t h C) =
       Info (initiating t h) :: flat_map (tick t) (range_down n 0)
         ++ Info (executing t) :: rest) ∧
  (∀ pre cmd post,
     events (worker t h C) = pre ++ System cmd :: post →
     ∃ mid,
       pre = Info (initiating t h) :: flat_map (tick t) (range_down n 0)
               ++ Info (executing t) :: mid).
Proof.
  intros _ Hd.
  split; [apply range_down_length |].
  split; [apply range_down_lookup |].
  split; [apply range_down_bounds |].
  destruct (worker_prefix t h C (Py.Int n) n Hd eq_refl) as (rest & E & _).
  rewrite countdown_ticks in E. split; [by exists rest |].
  intros pre cmd post E'. rewrite E in E'.
  destruct (split_after_prefix
              (Info (initiating t h) :: flat_map (tick t) (range_down n 0)
                 ++ [Info (executing t)]) rest pre post (System cmd))
    as [mid ->].
  - intros Hin. apply elem_of_cons in Hin as [? | Hin]; [discriminate |].
    apply elem_of_app in Hin as [Hin | Hin].
    + rewrite <- countdown_ticks in Hin.
      by apply System_not_in_countdown in Hin.
    + apply list_elem_of_singleton in Hin. discriminate.
  - rewrite <- E'. simpl. by rewrite <- app_assoc.
  - exists mid. simpl. by rewrite <- app_assoc.
Qed.

Lemma countdown_from_delay_to_one_witness :
  0 ≤ 5 ∧ sample_config !! "shutdown_delay" = Some (Py.Int 5) ∧
  length (range_down 5 0) = Z.to_nat 5 ∧
  (∀ x, x ∈ range_down 5 0 → 1 ≤ x ≤ 5).
Proof.
  split; [lia |]. split; [reflexivity |].
  destruct (countdown_from_delay_to_one Shutdown (linux_host 0)
              sample_config 5) as (Hlen & _ & Hbounds & _);
    [lia | reflexivity |].
  split; [exact Hlen | exact Hbounds].
Defined.

(** C6 (as stated) fails: with a delay of 3 the ticks are for 3, 2 and 1;
    there is no tick for 0, and the command follows the sleep after the
    tick for 1.  With a delay of 0 there is no tick at all. *)
Lemma no_tick_for_zero :
  range_down 3 0 = [3; 2; 1] ∧
  (0 ∉ range_down 3 0) ∧
  range_down 0 0 = [] ∧
  events (worker Shutdown (linux_host 0)
            (<["shutdown_delay" := Py.Int 3]> sample_config)) =
    [Info "Initiating system shutdown on linux...";
     Info "Shutting down in 3 seconds..."; Sleep 1;
     Info "Shutting down in 2 seconds..."; Sleep 1;
     Info "Shutting down in 1 seconds..."; Sleep 1;
     Info "Executing shutdown command...";
     Info "Executing Linux shutdown";
     System "sudo shutdown -h now"].
Proof.
  split; [reflexivity |]. split; [| split; reflexivity].
  intros Hin. apply range_down_bounds in Hin. lia.
Qed.

(** ** Where the credential is read from *)

Lemma first_non_empty_cons (v : Py.val) (vs : list Py.val) :
  first_non_empty (v :: vs) =
    if Py.truthy v then Some v else first_non_empty vs.
Proof.
  unfold first_non_empty. rewrite filter_cons.
  destruct (Py.truthy v); by case_decide.
Qed.

Lemma get_str_of_str (m : gmap string string) (k : string) :
  get_str m k = of_str (m !! k).
Proof. unfold get_str, of_str. by destruct (m !! k). Qed.

Lemma last_api_key_member (d : list (string * Py.val)) :
  last (api_key_members d) = Py.assoc "api_key" d.
Proof.
  unfold api_key_members, Py.assoc.
  induction d as [| [k v] d IH] using rev_ind; [done |].
  rewrite omap_app, rev_app_distr.
  cbn [omap list_omap rev app Py.first_bound fst snd].
  destruct (String.eqb "api_key" k).
  - apply last_snoc.
  - by rewrite app_nil_r.
Qed.

Lemma body_field_truthy (req : request) :
  Py.truthy (body_field req) = true →
  is_json req = true ∧
  bind (get_json req) (λ j, get_method j "api_key") = Ok (body_field req).
Proof.
  unfold body_field, get_json.
  destruct (is_json req); [| discriminate].
  destruct (json req) as [[| b | n | s | l | d] |]; simpl; try discriminate.
  intros _. by rewrite last_api_key_member.
Qed.

Lemma truthy_of_str (o : option string) :
  Py.truthy (of_str o) = true ↔ ∃ s, o = Some s ∧ s ≠ EmptyString.
Proof.
  destruct o as [s |]; simpl.
  - rewrite negb_true_iff, String.eqb_neq. split.
    + intros Hne. by exists s.
    + by intros (s' & [= <-] & Hne).
  - split; [discriminate | by intros (s & [=] & _)].
Qed.

(** C7. The credential is looked for in the [X-API-Key] header, then in the
    query parameter [api_key], then in the field [api_key] of a JSON body;
    the first of the three that is non-empty is the value the decorator
    compares with the configured key, an empty or absent earlier one being
    passed over.  So a non-empty header is the value compared whatever the
    other two hold; the query parameter is, when it is non-empty and the
    header is empty or absent; and the body field only when both are empty
    or absent. *)
Theorem first_non_empty_source_compared (req : request) (v : Py.val) :
  first_non_empty (credential_sources req) = Some v →
  presented_api_key req = Ok v ∧
  (∀ (C : gmap string Py.val) (key : Py.val) (f : M response),
     C !! "api_key" = Some key →
     require_api_key f C req = if Py.neb v key then reject req else f) ∧
  (∀ h, headers req !! "X-API-Key" = Some h → h ≠ EmptyString →
     v = Py.Str h) ∧
  (∀ q, (headers req !! "X-API-Key" = None ∨
         headers req !! "X-API-Key" = Some EmptyString) →
     args req !! "api_key" = Some q → q ≠ EmptyString →
     v = Py.Str q) ∧
  ((headers req !! "X-API-Key" = None ∨
    headers req !! "X-API-Key" = Some EmptyString) →
   (args req !! "api_key" = None ∨
    args req !! "api_key" = Some EmptyString) →
   is_json req = true ∧
   ∃ d, json req = Some (Py.Dict d) ∧
        last (api_key_members d) = Some v).
Proof.
  intros Hfirst.
  unfold credential_sources, header_field, query_parameter in Hfirst.
  rewrite !first_non_empty_cons in Hfirst.
  assert (presented_api_key req = Ok v) as Hv.
  { unfold presented_api_key. rewrite !get_str_of_str.
    destruct (Py.truthy (of_str (headers req !! "X-API-Key"))) eqn:Hh; simpl.
    - rewrite Hh. simpl. congruence.
    - destruct (Py.truthy (of_str (args req !! "api_key"))) eqn:Hq; simpl.
      + congruence.
      + destruct (Py.truthy (body_field req)) eqn:Hb; [| discriminate].
        injection Hfirst as <-.
        destruct (body_field_truthy req Hb) as [-> ->]. reflexivity. }
  split; [exact Hv |].
  split; [intros C key f Hk; by apply require_api_key_compare |].
  split; [| split].
  - intros h Hh Hne. rewrite Hh in Hfirst. simpl in Hfirst.
    apply String.eqb_neq in Hne. rewrite Hne in Hfirst. simpl in Hfirst.
    congruence.
  - intros q Hh Hq Hne.
    assert (Py.truthy (of_str (headers req !! "X-API-Key")) = false) as Hf
      by by destruct Hh as [-> | ->].
    rewrite Hf, Hq in Hfirst. simpl in Hfirst.
    apply String.eqb_neq in Hne. rewrite Hne in Hfirst. simpl in Hfirst.
    congruence.
  - intros Hh Hq.
    assert (Py.truthy (of_str (headers req !! "X-API-Key")) = false) as Hf
      by by destruct Hh as [-> | ->].
    assert (Py.truthy (of_str (args req !! "api_key")) = false) as Hg
      by by destruct Hq as [-> | ->].
    rewrite Hf, Hg in Hfirst.
    destruct (Py.truthy (body_field req)) eqn:Hb; [| discriminate].
    injection Hfirst as <-. revert Hb. unfold body_field.
    destruct (is_json req); [| discriminate].
    destruct (json req) as [[| b | n | s | l | d] |]; try discriminate.
    intros Hb. split; [done |]. exists d. split; [done |].
    destruct (last (api_key_members d)); [done | discriminate].
Qed.

Lemma first_non_empty_source_compared_witness :
  let req := {| headers := {["X-API-Key" := "from-header"]};
                args := {["api_key" := "from-query"]};
                is_json := true;
                json := Some (Py.Dict [("api_key", Py.Str "from-body")]);
                remote_addr := "192.168.1.20" |} in
  first_non_empty (credential_sources req) = Some (Py.Str "from-header") ∧
  presented_api_key req = Ok (Py.Str "from-header") ∧
  presented_api_key
    (with_body (Py.Dict [("api_key", Py.Str "first");
                         ("api_key", Py.Str "last")]))
    = Ok (Py.Str "last").
Proof.
  intros req. split; [reflexivity |]. split.
  - apply (first_non_empty_source_compared req (Py.Str "from-header")).
    reflexivity.
  - apply (first_non_empty_source_compared
             (with_body (Py.Dict [("api_key", Py.Str "first");
                                  ("api_key", Py.Str "last")]))
             (Py.Str "last")).
    reflexivity.
Defined.

(** ** The configuration as [/config] shows it *)

(** C8 (as the code has it). An authenticated [/config] request is answered
    with the whole configuration in which the value of [api_key] is replaced
    by the fixed mask, every other field being copied as configured.  The
    [api_key] field of the answer is therefore the configured key exactly
    when that key is the text of the mask itself. *)
Theorem get_config_masks_api_key (C : gmap string Py.val) (secret : string)
    (req : request) :
  C !! "api_key" = Some (Py.Str secret) →
  presented_api_key req = Ok (Py.Str secret) →
  get_config C req =
    ([], Ok {| code := 200; body := <["api_key" := Py.Str mask]> C |}) ∧
  (<["api_key" := Py.Str mask]> C) !! "api_key" = Some (Py.Str mask) ∧
  (∀ k, k ≠ "api_key" → (<["api_key" := Py.Str mask]> C) !! k = C !! k) ∧
  dom (<["api_key" := Py.Str mask]> C) = dom C ∧
  ((<["api_key" := Py.Str mask]> C) !! "api_key" = Some (Py.Str secret)
   ↔ secret = mask).
Proof.
  intros Hk Hv. split; [| split; [| split; [| split]]].
  - unfold get_config. rewrite (require_api_key_compare _ C req _ _ Hv Hk).
    assert (Py.neb (Py.Str secret) (Py.Str secret) = false) as ->
      by by apply neb_Str_r.
    reflexivity.
  - apply lookup_insert_eq.
  - intros k Hne. by apply lookup_insert_ne.
  - apply dom_insert_lookup_L. by eexists.
  - rewrite lookup_insert_eq. split; [intros E | intros E]; congruence.
Qed.

Lemma get_config_masks_api_key_witness :
  sample_config !! "api_key" = Some (Py.Str "change-this-secret-key") ∧
  presented_api_key (with_header "change-this-secret-key")
    = Ok (Py.Str "change-this-secret-key") ∧
  get_config sample_config (with_header "change-this-secret-key") =
    ([], Ok {| code := 200;
               body := <["api_key" := Py.Str mask]> sample_config |}).
Proof.
  split; [reflexivity |]. split; [reflexivity |].
  apply (get_config_masks_api_key sample_config "change-this-secret-key"
           (with_header "change-this-secret-key")); reflexivity.
Defined.

(** C8 (as stated) fails: when the configured key is the text of the mask,
    the [api_key] field of the answer is the configured key, letter for
    letter; and when the device name is the same string as the key, the
    [device_name] field of the answer shows it. *)
Lemma credential_in_config_output :
  (let C := <["api_key" := Py.Str "***hidden***"]> sample_config in
   ∃ resp, outcome (get_config C (with_header "***hidden***")) = Ok resp ∧
           C !! "api_key" = Some (Py.Str "***hidden***") ∧
           body resp !! "api_key" = Some (Py.Str "***hidden***")) ∧
  (let C := CONFIG_init "change-this-secret-key" in
   ∃ resp, outcome (get_config C (with_header "change-this-secret-key"))
             = Ok resp ∧
           C !! "api_key" = Some (Py.Str "change-this-secret-key") ∧
           body resp !! "device_name"
             = Some (Py.Str "change-this-secret-key")).
Proof.
  split; simpl; eexists; (split; [reflexivity |]); split; reflexivity.
Qed.

(** ** The answer to an accepted submission *)

(** Whatever the configuration, the first thing a worker does is log its
    opening line. *)
Lemma worker_first_event (t : power) (h : host) (C : gmap string Py.val) :
  events (worker t h C) !! 0%nat = Some (Info (initiating t h)).
Proof.
  destruct (C !! "shutdown_delay") as [d |] eqn:Hd;
    [destruct (Py.index d) as [n |] eqn:Hn |].
  - destruct (worker_prefix t h C d n Hd Hn) as (rest & -> & _). reflexivity.
  - rewrite worker_bad_delay; [reflexivity |].
    intros d' Hd'. rewrite Hd in Hd'. by injection Hd' as <-.
  - rewrite worker_bad_delay; [reflexivity |].
    intros d' Hd'. rewrite Hd in Hd'. discriminate.
Qed.

Lemma interleave_elem {A} (l1 l2 l : list A) :
  interleave l1 l2 l → ∀ x, x ∈ l ↔ x ∈ l1 ∨ x ∈ l2.
Proof.
  induction 1 as [| y l1 l2 l _ IH | y l1 l2 l _ IH]; intros x.
  - split; [intros Hin | intros [Hin | Hin]]; by apply not_elem_of_nil in Hin.
  - rewrite !elem_of_cons, IH. tauto.
  - rewrite !elem_of_cons, IH. tauto.
Qed.

Lemma interleave_nil_l {A} (l : list A) : interleave [] l l.
Proof.
  induction l as [| x l IH]; [apply interleave_nil | by apply interleave_right].
Qed.

(** An element of the merge that is not of the first sequence is of the
    second, and all that precedes it there precedes it in the merge. *)
Lemma interleave_split_r {A} (l1 l2 l : list A) :
  interleave l1 l2 l →
  ∀ pre post x, l = pre ++ x :: post → x ∉ l1 →
    ∃ p2 q2, l2 = p2 ++ x :: q2 ∧ p2 `sublist_of` pre.
Proof.
  induction 1 as [| y l1 l2 l _ IH | y l1 l2 l _ IH]; intros pre post x E Hx.
  - by destruct pre.
  - destruct pre as [| z pre]; simpl in E; injection E as -> E.
    + exfalso. apply Hx. by left.
    + destruct (IH pre post x E) as (p2 & q2 & -> & Hsub).
      * intros Hin. apply Hx. by right.
      * exists p2, q2. split; [done |]. by apply sublist_cons.
  - destruct pre as [| z pre]; simpl in E; injection E as -> E.
    + exists [], l2. split; [done |]. apply sublist_nil.
    + destruct (IH pre post x E Hx) as (p2 & q2 & -> & Hsub).
      exists (z :: p2), q2. split; [done |]. by apply sublist_skip.
Qed.

(** C9 (as the code has it). An authenticated submit is answered 200 with
    the fixed fields: the device name, the configured delay and the time of
    the request.  The answer is made from the configuration and the clock
    alone, so it is the same on every host, whatever [os.system] will do
    there.  The view starts the worker thread before it builds the answer
    and nothing orders the two afterwards: what is certain of every run is
    that a command comes after the start of the thread and after the whole
    countdown of the worker, with its one second of sleep per tick, and
    that one answer goes out, the one above. *)
Theorem accepted_whatever_execution (t : power) (C : gmap string Py.val)
    (secret : string) (req : request) (now : string) (device delay : Py.val)
    (n : Z) :
  C !! "api_key" = Some (Py.Str secret) →
  presented_api_key req = Ok (Py.Str secret) →
  C !! "device_name" = Some device →
  C !! "shutdown_delay" = Some delay →
  Py.index delay = Some n →
  outcome (submit t C req now) = Ok (accepted t device delay now) ∧
  code (accepted t device delay now) = 200 ∧
  body (accepted t device delay now) !! "device" = Some device ∧
  body (accepted t device delay now) !! "delay" = Some delay ∧
  body (accepted t device delay now) !! "timestamp" = Some (Py.Str now) ∧
  dom (body (accepted t device delay now))
    = ({["status"; "message"; "device"; "delay"; "timestamp"]} : gset string) ∧
  (∀ cmd, System cmd ∉ events (submit t C req now)) ∧
  ∀ h : host,
    request_runs h C (submit t C req now)
      (Did (Info (received t req)) :: Did (Start t)
       :: Answered (Ok (accepted t device delay now))
       :: (Did <$> events (worker t h C))) ∧
    ∀ tr, request_runs h C (submit t C req now) tr →
      (∀ r, Answered r ∈ tr ↔ r = Ok (accepted t device delay now)) ∧
      (∀ cmd pre post, tr = pre ++ Did (System cmd) :: post →
         (Did (Info (received t req)) :: Did (Start t)
          :: (Did <$> (Info (initiating t h) :: countdown (verb t) n
                         ++ [Info (executing t)])))
         `sublist_of` pre).
Proof.
  intros Hk Hv Hdev Hdel Hn. unfold request_runs.
  rewrite (submit_accepted t C secret req now device delay Hk Hv Hdev Hdel).
  unfold outcome, events; simpl.
  split; [reflexivity |]. split; [reflexivity |].
  split; [reflexivity |]. split; [reflexivity |]. split; [reflexivity |].
  split; [rewrite !dom_insert_L, dom_empty_L; set_solver |].
  split.
  { intros cmd Hin.
    repeat (apply elem_of_cons in Hin as [? | Hin]; [discriminate |]).
    by apply not_elem_of_nil in Hin. }
  intros h. split.
  { eexists. split; [reflexivity |]. eexists. split; [reflexivity |].
    eexists. split; [reflexivity |].
    apply interleave_left, interleave_nil_l. }
  intros tr (tr1 & -> & tr2 & -> & v & -> & Hmerge). split.
  - intros r. rewrite !elem_of_cons, (interleave_elem _ _ _ Hmerge).
    rewrite list_elem_of_singleton, list_elem_of_fmap. split.
    + intros [? | [? | [? | (e & ? & _)]]]; congruence.
    + intros ->. auto.
  - intros cmd pre post E.
    destruct pre as [| o1 pre]; simpl in E; [discriminate |].
    injection E as <- E.
    destruct pre as [| o2 pre]; simpl in E; [discriminate |].
    injection E as <- E.
    do 2 apply sublist_skip.
    destruct (interleave_split_r _ _ _ Hmerge pre post _ E)
      as (p2 & q2 & Hw & Hsub).
    { intros Hin. apply list_elem_of_singleton in Hin. discriminate. }
    etrans; [| exact Hsub].
    destruct (worker_prefix t h C delay n Hdel Hn) as (rest & Hrun & _).
    unfold events in Hrun, Hw. rewrite Hrun in Hw.
    destruct (split_after_prefix
                (Did <$> (Info (initiating t h) :: countdown (verb t) n
                            ++ [Info (executing t)]))
                (Did <$> rest) p2 q2 (Did (System cmd))) as [mid ->].
    + intros Hin. apply list_elem_of_fmap in Hin as (e & [= <-] & Hin).
      apply elem_of_cons in Hin as [? | Hin]; [discriminate |].
      apply elem_of_app in Hin as [Hin | Hin].
      * by apply System_not_in_countdown in Hin.
      * apply list_elem_of_singleton in Hin. discriminate.
    + rewrite <- Hw, <- fmap_app. f_equal. simpl. by rewrite <- app_assoc.
    + by apply sublist_inserts_r.
Qed.

Lemma accepted_whatever_execution_witness :
  sample_config !! "api_key" = Some (Py.Str "change-this-secret-key") ∧
  presented_api_key (with_header "change-this-secret-key")
    = Ok (Py.Str "change-this-secret-key") ∧
  sample_config !! "device_name" = Some (Py.Str "pc") ∧
  sample_config !! "shutdown_delay" = Some (Py.Int 5) ∧
  Py.index (Py.Int 5) = Some 5 ∧
  outcome (submit Shutdown sample_config
             (with_header "change-this-secret-key") "2024-05-01T10:00:00")
    = Ok (accepted Shutdown (Py.Str "pc") (Py.Int 5) "2024-05-01T10:00:00").
Proof.
  split; [reflexivity |]. split; [reflexivity |].
  split; [reflexivity |]. split; [reflexivity |]. split; [reflexivity |].
  apply (accepted_whatever_execution Shutdown sample_config
           "change-this-secret-key" (with_header "change-this-secret-key")
           "2024-05-01T10:00:00" (Py.Str "pc") (Py.Int 5) 5); reflexivity.
Defined.

(** C9 (as stated) fails: with a delay of 0 on a Linux host, this is a run
    of an accepted shutdown request in which the worker, started at line
    178, has called [os.system] before the view's answer goes out. *)
Lemma command_can_precede_answer :
  let C := <["shutdown_delay" := Py.Int 0]> sample_config in
  request_runs (linux_host 0) C
    (submit Shutdown C (with_header "change-this-secret-key")
       "2024-05-01T10:00:00")
    [Did (Info "Shutdown request received from 192.168.1.20");
     Did (Start Shutdown);
     Did (Info "Initiating system shutdown on linux...");
     Did (Info "Executing shutdown command...");
     Did (Info "Executing Linux shutdown");
     Did (System "sudo shutdown -h now");
     Answered (Ok (accepted Shutdown (Py.Str "pc") (Py.Int 0)
                     "2024-05-01T10:00:00"))].
Proof.
  intros C. unfold request_runs.
  rewrite (submit_accepted Shutdown C "change-this-secret-key"
             (with_header "change-this-secret-key") "2024-05-01T10:00:00"
             (Py.Str "pc") (Py.Int 0)) by reflexivity.
  unfold outcome, events. simpl.
  eexists. split; [reflexivity |]. eexists. split; [reflexivity |].
  eexists. split; [reflexivity |].
  repeat apply interleave_right.
  apply interleave_left, interleave_nil.
Qed.

(** ** Start-up *)

Lemma set_if_falsy (k : string) (v : Py.val) (C : gmap string Py.val) :
  Py.truthy v = false → set_if k v C = C.
Proof. unfold set_if. by intros ->. Qed.

Lemma set_if_lookup_ne (k k' : string) (v : Py.val) (C : gmap string Py.val) :
  k ≠ k' → set_if k v C !! k' = C !! k'.
Proof.
  intros Hne. unfold set_if. destruct (Py.truthy v); [| done].
  by apply lookup_insert_ne.
Qed.

Lemma set_if_is_Some (k k' : string) (v : Py.val) (C : gmap string Py.val) :
  is_Some (C !! k') → is_Some (set_if k v C !! k').
Proof.
  intros HS. unfold set_if. destruct (Py.truthy v); [| done].
  destruct (decide (k = k')) as [-> | Hne].
  - rewrite lookup_insert_eq. by eexists.
  - by rewrite lookup_insert_ne.
Qed.

Lemma update_is_Some (d : list (string * Py.val)) (C : gmap string Py.val)
    (k : string) :
  is_Some (C !! k) → is_Some (update d C !! k).
Proof.
  unfold update. revert C. induction d as [| [k' v] d IH]; intros C HS; simpl.
  - done.
  - apply IH. destruct (decide (k' = k)) as [-> | Hne].
    + rewrite lookup_insert_eq. by eexists.
    + by rewrite lookup_insert_ne.
Qed.

(** Loading and overriding only ever add or replace entries: every key of
    [CONFIG] is still a key when the server starts, so no view and no worker
    meets a [KeyError]. *)
Lemma main_config_is_Some (a : cli) (f : file) (C : gmap string Py.val)
    (k : string) :
  is_Some (C !! k) → is_Some (main_config a f C !! k).
Proof.
  intros HS. unfold main_config, main_overrides.
  destruct f as [| msg | d | d msg]; simpl;
    repeat apply set_if_is_Some; try done; by apply update_is_Some.
Qed.

(** C10. A command-line override whose value is falsy is dropped: with
    [--delay 0] the overrides leave [shutdown_delay] as the configuration
    file (or the default) set it, and likewise [--port 0] leaves [port];
    any other delay is taken.  Yet a delay of 0 is a value the
    configuration can hold: a file that sets it gives a server whose
    countdown is empty. *)
Theorem zero_override_ignored (a : cli) (f : file) (C : gmap string Py.val) :
  arg_delay a = Some 0 →
  main_overrides a C !! "shutdown_delay" = C !! "shutdown_delay" ∧
  main_config a f C !! "shutdown_delay" =
    after_load f C !! "shutdown_delay" ∧
  (∀ a', arg_port a' = Some 0 → main_overrides a' C !! "port" = C !! "port") ∧
  (∀ a' n, arg_delay a' = Some n → n ≠ 0 →
     main_overrides a' C !! "shutdown_delay" = Some (Py.Int n)) ∧
  main_config a (Object [("shutdown_delay", Py.Int 0)]) C !! "shutdown_delay"
    = Some (Py.Int 0) ∧
  (∀ t, countdown (verb t) 0 = []).
Proof.
  intros Hd.
  assert (∀ C', main_overrides a C' !! "shutdown_delay"
                = C' !! "shutdown_delay") as Hkeep.
  { intros C'. unfold main_overrides. rewrite Hd. simpl.
    rewrite set_if_falsy by reflexivity.
    by rewrite !set_if_lookup_ne by discriminate. }
  split; [apply Hkeep |]. split; [| split; [| split; [| split]]].
  - unfold main_config. destruct f; simpl; apply Hkeep.
  - intros a' Hp. unfold main_overrides. rewrite Hp.
    rewrite !set_if_lookup_ne by discriminate.
    by rewrite set_if_falsy by reflexivity.
  - intros a' n Hn Hne. unfold main_overrides. rewrite Hn.
    unfold set_if at 1. simpl.
    destruct (n =? 0) eqn:E; [apply Z.eqb_eq in E; done |]. simpl.
    apply lookup_insert_eq.
  - unfold main_config. simpl. rewrite Hkeep. unfold update. simpl.
    apply lookup_insert_eq.
  - intros t. reflexivity.
Qed.

Lemma zero_override_ignored_witness :
  arg_delay {| arg_port := Some 0; arg_api_key := None;
               arg_device_name := None; arg_delay := Some 0;
               arg_config := "shutdown-config.json" |} = Some 0 ∧
  main_overrides {| arg_port := Some 0; arg_api_key := None;
                    arg_device_name := None; arg_delay := Some 0;
                    arg_config := "shutdown-config.json" |} sample_config
    !! "shutdown_delay" = Some (Py.Int 5).
Proof.
  split; [reflexivity |].
  destruct (zero_override_ignored
              {| arg_port := Some 0; arg_api_key := None;
                 arg_device_name := None; arg_delay := Some 0;
                 arg_config := "shutdown-config.json" |}
              Absent sample_config eq_refl) as [H _].
  rewrite H. reflexivity.
Defined.

(** ** Worked requests *)

(** A request whose JSON body is an array cannot be asked for its
    [api_key]: the decorator raises before it compares anything, and the
    view does not run. *)
Example array_body_raises :
  submit Shutdown sample_config (with_body (Py.List_ [])) "2024-05-01T10:00:00"
  = ([], Raise "AttributeError" "'list' object has no attribute 'get'").
Proof. reflexivity. Qed.

(** The comparison is on whole strings: a key that differs in one letter's
    case does not pass. *)
Example key_is_case_sensitive :
  outcome (get_config sample_config (with_header "Change-this-secret-key"))
  = Ok unauthorized.
Proof. reflexivity. Qed.

(** An empty header is passed over for the query parameter. *)
Example empty_header_falls_through :
  presented_api_key
    {| headers := {["X-API-Key" := EmptyString]};
       args := {["api_key" := "change-this-secret-key"]};
       is_json := false; json := None; remote_addr := "192.168.1.20" |}
  = Ok (Py.Str "change-this-secret-key").
Proof. reflexivity. Qed.

(** * Further properties of the code *)

(** ** Loading the configuration *)

Lemma update_snoc (d : list (string * Py.val)) (k : string) (v : Py.val)
    (C : gmap string Py.val) :
  update (d ++ [(k, v)]) C = <[k := v]> (update d C).
Proof. unfold update. by rewrite foldl_app. Qed.

(** [CONFIG.update(d)] leaves every key bound to the last value the members
    of [d] give it, and every key [d] does not mention as it was. *)
Lemma update_lookup_last (d : list (string * Py.val))
    (C : gmap string Py.val) (k : string) :
  update d C !! k =
    match last_bound k d with
    | Some v => Some v
    | None => C !! k
    end.
Proof.
  unfold last_bound, Py.assoc.
  induction d as [| [k' v] d IH] using rev_ind.
  - reflexivity.
  - rewrite update_snoc, rev_app_distr. simpl.
    destruct (String.eqb k k') eqn:E.
    + apply String.eqb_eq in E as ->. apply lookup_insert_eq.
    + apply String.eqb_neq in E. rewrite lookup_insert_ne by congruence.
      apply IH.
Qed.

(** X1. [load_config] never raises.  A missing file changes nothing and
    logs nothing; a file that cannot be loaded at all changes nothing and
    logs the error; a JSON object is merged into [CONFIG], each key getting
    the last value the file gives it and the keys the file does not mention
    keeping theirs.  When [CONFIG.update] raises part-way, on a file that is
    not an object, the error is logged and the assignments already made
    stay.  In no case does a key of [CONFIG] go away. *)
Theorem load_config_merges (config_file : string) (f : file)
    (C : gmap string Py.val) :
  outcome (load_config config_file f C) = Ok (after_load f C) ∧
  (∀ k, after_load f C !! k = loaded f C k) ∧
  (∀ k, is_Some (C !! k) → is_Some (after_load f C !! k)) ∧
  events (load_config config_file f C) =
    match f with
    | Absent => []
    | Unloadable msg | Interrupted _ msg =>
        [Error ("Failed to load config: " +:+ msg)]
    | Object _ => [Info ("Configuration loaded from " +:+ config_file)]
    end ∧
  match f with
  | Absent | Unloadable _ => after_load f C = C
  | Object d | Interrupted d _ => after_load f C = update d C
  end.
Proof.
  split; [by destruct f |].
  split.
  { intros k. destruct f; simpl; try done; apply update_lookup_last. }
  split.
  { intros k HS. destruct f; simpl; try done; by apply update_is_Some. }
  by destruct f.
Qed.

(** ** The command-line overrides *)

Lemma set_if_lookup_eq (k : string) (v : Py.val) (C : gmap string Py.val) :
  set_if k v C !! k = overridden v (C !! k).
Proof.
  unfold set_if, overridden. destruct (Py.truthy v); [| done].
  apply lookup_insert_eq.
Qed.

Lemma main_overrides_lookup (a : cli) (C : gmap string Py.val) :
  main_overrides a C !! "port"
    = overridden (of_int (arg_port a)) (C !! "port") ∧
  main_overrides a C !! "api_key"
    = overridden (of_str (arg_api_key a)) (C !! "api_key") ∧
  main_overrides a C !! "device_name"
    = overridden (of_str (arg_device_name a)) (C !! "device_name") ∧
  main_overrides a C !! "shutdown_delay"
    = overridden (of_int (arg_delay a)) (C !! "shutdown_delay").
Proof.
  unfold main_overrides. repeat split.
  - by rewrite !set_if_lookup_ne, set_if_lookup_eq by discriminate.
  - by rewrite !set_if_lookup_ne, set_if_lookup_eq, set_if_lookup_ne
      by discriminate.
  - by rewrite set_if_lookup_ne, set_if_lookup_eq, !set_if_lookup_ne
      by discriminate.
  - by rewrite set_if_lookup_eq, !set_if_lookup_ne by discriminate.
Qed.

Lemma main_overrides_frame (a : cli) (C : gmap string Py.val) (k : string) :
  k ≠ "port" → k ≠ "api_key" → k ≠ "device_name" → k ≠ "shutdown_delay" →
  main_overrides a C !! k = C !! k.
Proof.
  intros H1 H2 H3 H4. unfold main_overrides.
  by rewrite !set_if_lookup_ne by congruence.
Qed.

Lemma main_config_unfold (a : cli) (f : file) (C : gmap string Py.val) :
  main_config a f C =
    main_overrides a (after_load f C).
Proof. by destruct f. Qed.

Lemma loaded_lookup (f : file) (C : gmap string Py.val) (k : string) :
  after_load f C !! k = loaded f C k.
Proof. destruct f; simpl; try done; apply update_lookup_last. Qed.

(** X2. The value a setting has when the server starts follows a fixed
    order of precedence: a value given on the command line that is not
    falsy (a non-zero integer, a non-empty string); else the last value
    [CONFIG.update] assigned to the key from the configuration file, be it
    in a complete load or before the update raised; else the built-in
    default.  This holds for the four settings that have an option: port,
    API key, device name and delay. *)
Theorem startup_precedence (a : cli) (f : file) (C : gmap string Py.val) :
  main_config a f C !! "port" =
    match arg_port a with
    | Some n => if n =? 0 then loaded f C "port" else Some (Py.Int n)
    | None => loaded f C "port"
    end ∧
  main_config a f C !! "api_key" =
    match arg_api_key a with
    | Some s => if String.eqb s EmptyString then loaded f C "api_key"
                else Some (Py.Str s)
    | None => loaded f C "api_key"
    end ∧
  main_config a f C !! "device_name" =
    match arg_device_name a with
    | Some s => if String.eqb s EmptyString then loaded f C "device_name"
                else Some (Py.Str s)
    | None => loaded f C "device_name"
    end ∧
  main_config a f C !! "shutdown_delay" =
    match arg_delay a with
    | Some n => if n =? 0 then loaded f C "shutdown_delay"
                else Some (Py.Int n)
    | None => loaded f C "shutdown_delay"
    end.
Proof.
  rewrite main_config_unfold.
  destruct (main_overrides_lookup a
              (after_load f C))
    as (-> & -> & -> & ->).
  rewrite !loaded_lookup. unfold overridden.
  repeat split.
  - destruct (arg_port a) as [n |]; simpl; [by destruct (n =? 0) | done].
  - destruct (arg_api_key a) as [s |]; simpl;
      [by destruct (String.eqb s EmptyString) | done].
  - destruct (arg_device_name a) as [s |]; simpl;
      [by destruct (String.eqb s EmptyString) | done].
  - destruct (arg_delay a) as [n |]; simpl; [by destruct (n =? 0) | done].
Qed.

(** X3. No option reaches any other key: the listening address [host], the
    log file and whatever further keys the configuration file brings are,
    at start-up, exactly what loading the file made them. *)
Theorem startup_other_keys (a : cli) (f : file) (C : gmap string Py.val)
    (k : string) :
  k ≠ "port" → k ≠ "api_key" → k ≠ "device_name" → k ≠ "shutdown_delay" →
  main_config a f C !! k = loaded f C k.
Proof.
  intros H1 H2 H3 H4.
  rewrite main_config_unfold, main_overrides_frame by done.
  apply loaded_lookup.
Qed.

Lemma startup_other_keys_witness :
  "host" ≠ "port" ∧ "host" ≠ "api_key" ∧ "host" ≠ "device_name" ∧
  "host" ≠ "shutdown_delay" ∧
  main_config {| arg_port := Some 8080; arg_api_key := Some "k";
                 arg_device_name := Some "n"; arg_delay := Some 9;
                 arg_config := "c.json" |}
    (Object [("host", Py.Str "127.0.0.1")]) sample_config !! "host"
    = Some (Py.Str "127.0.0.1").
Proof.
  repeat (split; [discriminate |]).
  rewrite (startup_other_keys _ _ _ "host") by discriminate. reflexivity.
Defined.

(** ** What every start-up guarantees *)

Lemma CONFIG_init_keys (name k : string) :
  k ∈ config_keys → is_Some (CONFIG_init name !! k).
Proof.
  unfold config_keys. intros Hin.
  repeat (apply elem_of_cons in Hin as [-> | Hin]; [by eexists |]).
  by apply not_elem_of_nil in Hin.
Qed.


(** X4. Loading and overriding only add or replace entries, so whatever the
    command line and the configuration file are, the six keys [CONFIG] is
    created with are all there when the server starts. *)
Theorem startup_keeps_keys (a : cli) (f : file) (name : string) :
  Forall (λ k, is_Some (main_config a f (CONFIG_init name) !! k)) config_keys.
Proof.
  apply Forall_forall. intros k Hin.
  apply main_config_is_Some, CONFIG_init_keys. done.
Qed.

(** X5. [/status] and [/ping] look at no credential and at nothing else of
    the request.  On the configuration of any start-up they answer 200 with
    the device name (and, for [/status], the platform tag and the version);
    they log nothing, start no thread and call no command. *)
Theorem status_ping_always_answer (a : cli) (f : file) (name : string)
    (h : host) (now : string) :
  ∃ device,
    main_config a f (CONFIG_init name) !! "device_name" = Some device ∧
    status h (main_config a f (CONFIG_init name)) now =
      ([], Ok {| code := 200;
                 body := <["status" := Py.Str "online"]>
                         (<["device" := device]>
                         (<["platform" := Py.Str (platform h)]>
                         (<["version" := Py.Str "1.0.0.0-beta"]>
                         (<["timestamp" := Py.Str now]> ∅)))) |}) ∧
    ping (main_config a f (CONFIG_init name)) now =
      ([], Ok {| code := 200;
                 body := <["pong" := Py.Bool true]>
                         (<["device" := device]>
                         (<["timestamp" := Py.Str now]> ∅)) |}).
Proof.
  destruct (main_config_is_Some a f (CONFIG_init name) "device_name")
    as [device Hdev]; [by eexists |].
  exists device. split; [exact Hdev |].
  unfold status, ping, mbind, M_bind, seq_, lift, ret.
  by rewrite (getitem_Some _ _ _ Hdev).
Qed.

(** An authenticated submit, for a key of any kind. *)
Lemma submit_passed (t : power) (C : gmap string Py.val) (req : request)
    (now : string) (v key device delay : Py.val) :
  C !! "api_key" = Some key →
  presented_api_key req = Ok v →
  Py.neb v key = false →
  C !! "device_name" = Some device →
  C !! "shutdown_delay" = Some delay →
  submit t C req now =
    ([Info (received t req); Start t], Ok (accepted t device delay now)).
Proof.
  intros Hk Hv Heq Hdev Hdel.
  rewrite submit_unfold, (require_api_key_compare _ C req _ _ Hv Hk), Heq.
  destruct t; unfold shutdown_view, restart_view, shutdown_view_in,
    restart_view_in, start_thread, try_, mbind, M_bind, seq_,
    lift, emit, perform, ret;
    by rewrite (getitem_Some _ _ _ Hdev), (getitem_Some _ _ _ Hdel).
Qed.

(** X6. On the configuration of any start-up, a submit whose credential can
    be read has three possible answers and no other: 200, with the request
    logged and exactly one thread started; 401, with the warning logged and
    no thread started; and 500, which occurs only when the credential
    passes and [Thread.start()] raises, with the request and the error
    logged and no thread started.  No key of [CONFIG] is ever missing, so
    the views' [except] branch is never entered for a [KeyError]. *)
Theorem submit_answers (a : cli) (f : file) (name : string)
    (th : threading) (t : power) (req : request) (now : string) (v : Py.val) :
  presented_api_key req = Ok v →
  ∃ resp,
    outcome (submit_in th t (main_config a f (CONFIG_init name)) req now)
      = Ok resp ∧
    ((code resp = 200 ∧ th = CanStart ∧
      events (submit_in th t (main_config a f (CONFIG_init name)) req now)
        = [Info (received t req); Start t] ∧
      started
        (events (submit_in th t (main_config a f (CONFIG_init name)) req now))
        = [{| target := t; performed := 0 |}]) ∨
     (resp = unauthorized ∧
      events (submit_in th t (main_config a f (CONFIG_init name)) req now)
        = [Warning ("Unauthorized access attempt from " +:+ remote_addr req)]
      ∧
      started
        (events (submit_in th t (main_config a f (CONFIG_init name)) req now))
        = []) ∨
     (code resp = 500 ∧
      (∃ msg line, th = CannotStart msg ∧
         events (submit_in th t (main_config a f (CONFIG_init name)) req now)
           = [Info (received t req); Error line]) ∧
      started
        (events (submit_in th t (main_config a f (CONFIG_init name)) req now))
        = [])).
Proof.
  intros Hv. set (C := main_config a f (CONFIG_init name)).
  destruct (main_config_is_Some a f (CONFIG_init name) "api_key")
    as [key Hk]; [by eexists |].
  destruct (main_config_is_Some a f (CONFIG_init name) "device_name")
    as [device Hdev]; [by eexists |].
  destruct (main_config_is_Some a f (CONFIG_init name) "shutdown_delay")
    as [delay Hdel]; [by eexists |].
  fold C in Hk, Hdev, Hdel.
  assert (submit_in th t C req now =
            require_api_key
              (match t with
               | Shutdown => shutdown_view_in th C req now
               | Restart => restart_view_in th C req now
               end) C req) as -> by by destruct t.
  rewrite (require_api_key_compare _ C req _ _ Hv Hk).
  destruct (Py.neb v key) eqn:E.
  - exists unauthorized. split; [reflexivity |]. right. left. by repeat split.
  - destruct th as [| msg];
      destruct t; unfold shutdown_view_in, restart_view_in, start_thread,
        try_, mbind, M_bind, seq_, lift, emit, perform, ret, raise;
      rewrite ?(getitem_Some _ _ _ Hdev), ?(getitem_Some _ _ _ Hdel); simpl;
      eexists; (split; [reflexivity |]).
    1, 2: left; by repeat split.
    all: right; right; split; [reflexivity |]; split; [| reflexivity];
      by eexists _, _.
Qed.

Lemma submit_answers_witness :
  presented_api_key (with_header "change-this-secret-key")
    = Ok (Py.Str "change-this-secret-key") ∧
  ∃ resp,
    outcome (submit_in (CannotStart "can't start new thread") Shutdown
               (main_config no_options Absent (CONFIG_init "pc"))
               (with_header "change-this-secret-key") "2024-05-01T10:00:00")
      = Ok resp ∧
    code resp = 500.
Proof.
  split; [reflexivity |].
  destruct (submit_answers no_options Absent "pc"
              (CannotStart "can't start new thread") Shutdown
              (with_header "change-this-secret-key") "2024-05-01T10:00:00"
              (Py.Str "change-this-secret-key") eq_refl)
    as (resp & Hout & _).
  exists resp. split; [exact Hout |].
  vm_compute in Hout. injection Hout as <-. reflexivity.
Defined.

(** ** Saving and loading again *)







(** ** The decorator at its edges *)

(** X8. The comparison of line 94 is between Python values, not strings.
    When the configuration file sets [api_key] to [null] and no key is given
    on the command line, a request that presents no credential at all
    compares [None] with [None] and is let through to the view. *)
Theorem null_key_admits_bare_requests (a : cli) (d : list (string * Py.val))
    (C0 : gmap string Py.val) (req : request) (f : M response) :
  arg_api_key a = None →
  last_bound "api_key" d = Some Py.None_ →
  presented_api_key req = Ok Py.None_ →
  main_config a (Object d) C0 !! "api_key" = Some Py.None_ ∧
  require_api_key f (main_config a (Object d) C0) req = f.
Proof.
  intros Ha Hd Hv.
  assert (main_config a (Object d) C0 !! "api_key" = Some Py.None_) as Hk.
  { rewrite main_config_unfold. simpl after_load.
    destruct (main_overrides_lookup a (update d C0)) as (_ & -> & _).
    rewrite Ha. unfold overridden. simpl.
    by rewrite update_lookup_last, Hd. }
  split; [exact Hk |].
  by rewrite (require_api_key_compare f _ req _ _ Hv Hk).
Qed.

Lemma null_key_admits_bare_requests_witness :
  arg_api_key no_options = None ∧
  last_bound "api_key" [("api_key", Py.None_)] = Some Py.None_ ∧
  presented_api_key bare_request = Ok Py.None_ ∧
  outcome (get_config
             (main_config no_options (Object [("api_key", Py.None_)])
                sample_config) bare_request)
    = outcome (get_config_view
                 (main_config no_options (Object [("api_key", Py.None_)])
                    sample_config)).
Proof.
  split; [reflexivity |]. split; [reflexivity |]. split; [reflexivity |].
  unfold get_config.
  destruct (null_key_admits_bare_requests no_options
              [("api_key", Py.None_)] sample_config bare_request
              (get_config_view
                 (main_config no_options (Object [("api_key", Py.None_)])
                    sample_config)) eq_refl eq_refl eq_refl) as [_ ->].
  reflexivity.
Defined.

(** X9. The decorator raises, instead of answering 401, in one situation
    only: neither the header nor the query parameter holds a non-empty key,
    the request is JSON, and its body does not parse or is not an object.
    The exception then leaves the decorator before anything is logged and
    before the view runs. *)
Theorem credential_unreadable_iff (req : request) :
  ((∃ cls msg, presented_api_key req = Raise cls msg) ↔
   Py.truthy (get_str (headers req) "X-API-Key") = false ∧
   Py.truthy (get_str (args req) "api_key") = false ∧
   is_json req = true ∧
   ∀ d, json req ≠ Some (Py.Dict d)) ∧
  (∀ cls msg f C,
     presented_api_key req = Raise cls msg →
     require_api_key f C req = ([], Raise cls msg)).
Proof.
  split; [| intros cls msg f C; apply require_api_key_raise].
  unfold presented_api_key, get_json.
  destruct (Py.truthy (get_str (headers req) "X-API-Key")) eqn:Hh; simpl.
  { rewrite Hh. simpl. split; [intros (? & ? & [=]) | intros ([=] & _)]. }
  destruct (Py.truthy (get_str (args req) "api_key")) eqn:Hq; simpl.
  { split; [intros (? & ? & [=]) | intros (_ & [=] & _)]. }
  destruct (is_json req); simpl.
  2: { split; [intros (? & ? & [=]) | intros (_ & _ & [=] & _)]. }
  destruct (json req) as [[| b | n | s | l | d] |]; simpl.
  all: split;
    [ intros (cls & msg & E); try discriminate;
      repeat split; discriminate
    | intros (_ & _ & _ & Hno); try (by eexists _, _) ].
  exfalso. by apply (Hno d).
Qed.

(** X10. A non-empty header that is wrong is final: the request is turned
    away even when its query parameter or its body carries the right key,
    for these are only read when the header is empty or absent. *)
Theorem wrong_header_is_final (C : gmap string Py.val) (secret : string)
    (req : request) (h : string) (f : M response) :
  C !! "api_key" = Some (Py.Str secret) →
  headers req !! "X-API-Key" = Some h →
  h ≠ EmptyString →
  h ≠ secret →
  require_api_key f C req = reject req.
Proof.
  intros Hk Hh Hne Hwrong.
  assert (presented_api_key req = Ok (Py.Str h)) as Hv.
  { unfold presented_api_key, get_str. rewrite Hh. simpl.
    apply String.eqb_neq in Hne. rewrite Hne. simpl. by rewrite Hne. }
  rewrite (require_api_key_compare f C req _ _ Hv Hk).
  rewrite neb_Str_r_true; [done | congruence].
Qed.

Lemma wrong_header_is_final_witness :
  let req := {| headers := {["X-API-Key" := "guess"]};
                args := {["api_key" := "change-this-secret-key"]};
                is_json := true;
                json := Some (Py.Dict
                                [("api_key", Py.Str "change-this-secret-key")]);
                remote_addr := "192.168.1.20" |} in
  sample_config !! "api_key" = Some (Py.Str "change-this-secret-key") ∧
  headers req !! "X-API-Key" = Some "guess" ∧
  "guess" ≠ EmptyString ∧ "guess" ≠ "change-this-secret-key" ∧
  shutdown sample_config req "2024-05-01T10:00:00" = reject req.
Proof.
  intros req.
  split; [reflexivity |]. split; [reflexivity |].
  split; [discriminate |]. split; [discriminate |].
  apply (wrong_header_is_final sample_config "change-this-secret-key" req
           "guess"); [reflexivity | reflexivity | discriminate | discriminate].
Defined.

(** X11. What [/config] answers to a request with a wrong credential says
    nothing about the configuration: two servers with different
    configurations, neither of which has the presented value for its key,
    give the same answer and log the same line. *)
Theorem get_config_rejection_is_blind (C C' : gmap string Py.val)
    (secret secret' : string) (req : request) (v : Py.val) :
  C !! "api_key" = Some (Py.Str secret) →
  C' !! "api_key" = Some (Py.Str secret') →
  presented_api_key req = Ok v →
  v ≠ Py.Str secret →
  v ≠ Py.Str secret' →
  get_config C req = get_config C' req ∧
  outcome (get_config C req) = Ok unauthorized.
Proof.
  intros Hk Hk' Hv Hne Hne'. unfold get_config.
  rewrite (require_api_key_compare _ C req _ _ Hv Hk),
    (require_api_key_compare _ C' req _ _ Hv Hk').
  by rewrite !neb_Str_r_true.
Qed.

Lemma get_config_rejection_is_blind_witness :
  sample_config !! "api_key" = Some (Py.Str "change-this-secret-key") ∧
  CONFIG_init "laptop" !! "api_key" = Some (Py.Str "change-this-secret-key") ∧
  presented_api_key (with_header "guess") = Ok (Py.Str "guess") ∧
  Py.Str "guess" ≠ Py.Str "change-this-secret-key" ∧
  get_config sample_config (with_header "guess")
    = get_config (CONFIG_init "laptop") (with_header "guess").
Proof.
  split; [reflexivity |]. split; [reflexivity |]. split; [reflexivity |].
  split; [discriminate |].
  apply (get_config_rejection_is_blind sample_config (CONFIG_init "laptop")
           "change-this-secret-key" "change-this-secret-key"
           (with_header "guess") (Py.Str "guess"));
    [reflexivity | reflexivity | reflexivity | discriminate | discriminate].
Defined.

(** ** The run of a worker *)

Lemma commands_app (es es' : list event) :
  commands (es ++ es') = commands es ++ commands es'.
Proof. apply omap_app. Qed.

Lemma slept_app (es es' : list event) :
  slept (es ++ es') = slept es + slept es'.
Proof.
  induction es as [| e es IH]; simpl; [done |].
  destruct e; rewrite ?IH; lia.
Qed.

Lemma commands_countdown (verb : string) (n : Z) :
  commands (countdown verb n) = [].
Proof.
  unfold countdown. induction (range_down n 0) as [| i l IH]; [done |].
  simpl. exact IH.
Qed.

Lemma slept_countdown (verb : string) (n : Z) :
  slept (countdown verb n) = Z.max 0 n.
Proof.
  assert (∀ l : list Z,
            slept (flat_map
                     (λ i, [Info (verb +:+ " in " +:+ pretty i
                                  +:+ " seconds...");
                            Sleep 1]) l)
            = Z.of_nat (length l)) as Hlen.
  { induction l as [| i l IH]; [done |].
    simpl flat_map. simpl slept. simpl in IH. rewrite IH.
    simpl length. lia. }
  unfold countdown. rewrite Hlen, range_down_length. lia.
Qed.

(** The whole run of a worker that can read its delay: the opening line,
    the countdown, the announcement, and then what the platform's branch
    does. *)
Lemma worker_run (t : power) (h : host) (C : gmap string Py.val)
    (d : Py.val) (n : Z) :
  C !! "shutdown_delay" = Some d →
  Py.index d = Some n →
  ∃ tail b,
    worker t h C =
      (Info (initiating t h) :: countdown (verb t) n
         ++ Info (executing t) :: tail, Ok b) ∧
    match command t (platform h) with
    | None =>
        tail = [Error ("Unsupported platform: " +:+ platform h)] ∧ b = false
    | Some c =>
        ∃ line,
          match os_system h c with
          | Exit _ => tail = [Info line; System c] ∧ b = true
          | Throws _ msg =>
              (∃ err, tail = [Info line; System c; Error err]) ∧ b = false
          end
    end.
Proof.
  intros Hd Hn.
  destruct t; unfold worker, shutdown_system, restart_system, as_index,
    mbind, M_bind, seq_, lift, emit, perform, ret, command;
    rewrite (getitem_Some _ _ _ Hd), Hn; simpl.
  all: destruct (String.eqb (platform h) "win32") eqn:Ew;
    [| destruct (String.eqb (platform h) "linux") eqn:El;
       [| destruct (String.eqb (platform h) "darwin") eqn:Ed]].
  all: unfold system, try_; simpl.
  all: try match goal with
       | |- context [os_system ?h0 ?c] => destruct (os_system h0 c) eqn:Eos
       end; simpl.
  all: eexists _, _; (split; [reflexivity |]).
  all: try (split; reflexivity).
  all: eexists; rewrite ?Eos; try (split; reflexivity).
  all: split; [by eexists | reflexivity].
Qed.

(** X12. A worker that can read its delay calls [os.system] exactly once on
    a platform it has a command for, with that command, and never on any
    other platform.  It does so whether the call returns or raises: a
    failed command is not tried again. *)
Theorem worker_calls_system_once (t : power) (h : host)
    (C : gmap string Py.val) (d : Py.val) (n : Z) :
  C !! "shutdown_delay" = Some d →
  Py.index d = Some n →
  commands (events (worker t h C)) =
    match command t (platform h) with
    | Some c => [c]
    | None => []
    end.
Proof.
  intros Hd Hn.
  destruct (worker_run t h C d n Hd Hn) as (tail & b & -> & Htail).
  unfold events. simpl. rewrite commands_app, commands_countdown. simpl.
  destruct (command t (platform h)) as [c |].
  - destruct Htail as [line Htail]. destruct (os_system h c).
    + by destruct Htail as [-> _].
    + by destruct Htail as [[err ->] _].
  - by destruct Htail as [-> _].
Qed.

Lemma worker_calls_system_once_witness :
  sample_config !! "shutdown_delay" = Some (Py.Int 5) ∧
  Py.index (Py.Int 5) = Some 5 ∧
  commands (events (worker Restart broken_windows_host sample_config)) =
    ["shutdown /r /t 1 /c " +:+ dq +:+ "Remote restart via Discord Maid Bot"
     +:+ dq].
Proof.
  split; [reflexivity |]. split; [reflexivity |].
  rewrite (worker_calls_system_once Restart broken_windows_host sample_config
             (Py.Int 5) 5 eq_refl eq_refl).
  reflexivity.
Defined.

(** X13. What a worker returns depends on two things only: whether it has a
    command for the platform and whether [os.system] returned or raised.
    It returns [True] exactly when the platform is one of the three and the
    call returned, with any wait status; otherwise [False]. *)
Theorem worker_result (t : power) (h : host) (C : gmap string Py.val)
    (d : Py.val) (n : Z) :
  C !! "shutdown_delay" = Some d →
  Py.index d = Some n →
  outcome (worker t h C) =
    Ok match command t (platform h) with
       | Some c =>
           match os_system h c with
           | Exit _ => true
           | Throws _ _ => false
           end
       | None => false
       end.
Proof.
  intros Hd Hn.
  destruct (worker_run t h C d n Hd Hn) as (tail & b & -> & Htail).
  unfold outcome. simpl. f_equal.
  destruct (command t (platform h)) as [c |].
  - destruct Htail as [line Htail]. destruct (os_system h c).
    + by destruct Htail as [_ ->].
    + by destruct Htail as [_ ->].
  - by destruct Htail as [_ ->].
Qed.

Lemma worker_result_witness :
  sample_config !! "shutdown_delay" = Some (Py.Int 5) ∧
  Py.index (Py.Int 5) = Some 5 ∧
  outcome (worker Shutdown broken_windows_host sample_config) = Ok false.
Proof.
  split; [reflexivity |]. split; [reflexivity |].
  rewrite (worker_result Shutdown broken_windows_host sample_config
             (Py.Int 5) 5 eq_refl eq_refl).
  reflexivity.
Defined.

(** X14. Between its start and its command a worker sleeps for as many
    seconds as the configured delay, and for none when the delay is zero
    or negative; it sleeps nowhere else. *)
Theorem worker_sleeps_the_delay (t : power) (h : host)
    (C : gmap string Py.val) (d : Py.val) (n : Z) :
  C !! "shutdown_delay" = Some d →
  Py.index d = Some n →
  slept (events (worker t h C)) = Z.max 0 n.
Proof.
  intros Hd Hn.
  destruct (worker_run t h C d n Hd Hn) as (tail & b & -> & Htail).
  unfold events. simpl. rewrite slept_app, slept_countdown. simpl.
  assert (slept tail = 0) as ->; [| lia].
  destruct (command t (platform h)) as [c |].
  - destruct Htail as [line Htail]. destruct (os_system h c).
    + by destruct Htail as [-> _].
    + by destruct Htail as [[err ->] _].
  - by destruct Htail as [-> _].
Qed.

Lemma worker_sleeps_the_delay_witness :
  sample_config !! "shutdown_delay" = Some (Py.Int 5) ∧
  Py.index (Py.Int 5) = Some 5 ∧
  slept (events (worker Shutdown (linux_host 0) sample_config)) = 5.
Proof.
  split; [reflexivity |]. split; [reflexivity |].
  rewrite (worker_sleeps_the_delay Shutdown (linux_host 0) sample_config
             (Py.Int 5) 5 eq_refl eq_refl).
  reflexivity.
Defined.

(** X15. A negative [--delay] is taken (it is not falsy) and gives a worker
    without countdown: after its opening line it goes straight to the line
    that announces the command. *)
Theorem negative_delay_is_immediate (a : cli) (C : gmap string Py.val)
    (n : Z) (t : power) (h : host) :
  arg_delay a = Some n →
  n < 0 →
  main_overrides a C !! "shutdown_delay" = Some (Py.Int n) ∧
  ∃ tail,
    events (worker t h (main_overrides a C)) =
      Info (initiating t h) :: Info (executing t) :: tail.
Proof.
  intros Ha Hneg.
  assert (main_overrides a C !! "shutdown_delay" = Some (Py.Int n)) as Hd.
  { destruct (main_overrides_lookup a C) as (_ & _ & _ & ->).
    rewrite Ha. unfold overridden. simpl.
    destruct (n =? 0) eqn:E; [apply Z.eqb_eq in E; lia | done]. }
  split; [exact Hd |].
  destruct (worker_run t h _ (Py.Int n) n Hd eq_refl)
    as (tail & b & -> & _).
  exists tail. unfold events, countdown, range_down. simpl.
  replace (Z.to_nat (n - 0)) with 0%nat by lia. reflexivity.
Qed.

Lemma negative_delay_is_immediate_witness :
  let a := {| arg_port := None; arg_api_key := None;
              arg_device_name := None; arg_delay := Some (-5);
              arg_config := "shutdown-config.json" |} in
  arg_delay a = Some (-5) ∧ -5 < 0 ∧
  main_overrides a sample_config !! "shutdown_delay" = Some (Py.Int (-5)).
Proof.
  intros a. split; [reflexivity |]. split; [lia |].
  apply (negative_delay_is_immediate a sample_config (-5) Shutdown
           (linux_host 0)); [reflexivity | lia].
Defined.

(** X16. A delay that is not an integer (a string in the configuration
    file, say) is not noticed when the request is answered: an authenticated
    submit gets its 200 with that delay in it, but the worker it starts
    raises a [TypeError] after its opening line and calls no command. *)
Theorem unreadable_delay_never_executes (t : power) (C : gmap string Py.val)
    (secret : string) (req : request) (now : string) (device d : Py.val)
    (h : host) :
  C !! "api_key" = Some (Py.Str secret) →
  presented_api_key req = Ok (Py.Str secret) →
  C !! "device_name" = Some device →
  C !! "shutdown_delay" = Some d →
  Py.index d = None →
  submit t C req now =
    ([Info (received t req); Start t], Ok (accepted t device d now)) ∧
  worker t h C =
    ([Info (initiating t h)],
     Raise "TypeError"
       ("'" +:+ type_name d +:+ "' object cannot be interpreted as an integer"))
  ∧ commands (events (worker t h C)) = [].
Proof.
  intros Hk Hv Hdev Hd Hidx.
  split; [by apply (submit_accepted t C secret) |].
  assert (worker t h C =
            ([Info (initiating t h)],
             Raise "TypeError"
               ("'" +:+ type_name d
                +:+ "' object cannot be interpreted as an integer"))) as ->.
  { destruct t; unfold worker, shutdown_system, restart_system, as_index,
      mbind, M_bind, seq_, lift, emit, perform, ret, raise;
      by rewrite (getitem_Some _ _ _ Hd), Hidx. }
  by split.
Qed.

Lemma unreadable_delay_never_executes_witness :
  let C := <["shutdown_delay" := Py.Str "5"]> sample_config in
  C !! "api_key" = Some (Py.Str "change-this-secret-key") ∧
  presented_api_key (with_header "change-this-secret-key")
    = Ok (Py.Str "change-this-secret-key") ∧
  C !! "device_name" = Some (Py.Str "pc") ∧
  C !! "shutdown_delay" = Some (Py.Str "5") ∧
  Py.index (Py.Str "5") = None ∧
  commands (events (worker Shutdown (linux_host 0) C)) = [].
Proof.
  intros C.
  split; [reflexivity |]. split; [reflexivity |]. split; [reflexivity |].
  split; [reflexivity |]. split; [reflexivity |].
  apply (unreadable_delay_never_executes Shutdown C "change-this-secret-key"
           (with_header "change-this-secret-key") "2024-05-01T10:00:00"
           (Py.Str "pc") (Py.Str "5") (linux_host 0)); reflexivity.
Defined.

(** X17. An empty configured key cannot be presented in the header, which
    is passed over when empty, but it can in the query string: a request
    that is not JSON, has no key in its header and has an empty [api_key]
    parameter is let through to the view.  A request with no [api_key]
    parameter at all is turned away. *)
Theorem empty_key_admits_empty_parameter (C : gmap string Py.val)
    (req : request) (f : M response) :
  C !! "api_key" = Some (Py.Str EmptyString) →
  Py.truthy (get_str (headers req) "X-API-Key") = false →
  is_json req = false →
  (args req !! "api_key" = Some EmptyString →
     require_api_key f C req = f) ∧
  (args req !! "api_key" = None →
     require_api_key f C req = reject req).
Proof.
  intros Hk Hh Hj. split; intros Hq.
  - assert (presented_api_key req = Ok (Py.Str EmptyString)) as Hv.
    { unfold presented_api_key. rewrite Hh, Hj. simpl.
      unfold get_str. by rewrite Hq. }
    by rewrite (require_api_key_compare f C req _ _ Hv Hk).
  - assert (presented_api_key req = Ok Py.None_) as Hv.
    { unfold presented_api_key. rewrite Hh, Hj. simpl.
      unfold get_str. by rewrite Hq. }
    by rewrite (require_api_key_compare f C req _ _ Hv Hk).
Qed.

Lemma empty_key_admits_empty_parameter_witness :
  let C := <["api_key" := Py.Str EmptyString]> sample_config in
  let req := {| headers := ∅; args := {["api_key" := EmptyString]};
                is_json := false; json := None;
                remote_addr := "192.168.1.20" |} in
  C !! "api_key" = Some (Py.Str EmptyString) ∧
  Py.truthy (get_str (headers req) "X-API-Key") = false ∧
  is_json req = false ∧
  args req !! "api_key" = Some EmptyString ∧
  get_config C req = get_config_view C.
Proof.
  intros C req.
  split; [reflexivity |]. split; [reflexivity |]. split; [reflexivity |].
  split; [reflexivity |].
  apply (empty_key_admits_empty_parameter C req (get_config_view C));
    reflexivity.
Defined.
